(** * LinkedIn Auto-Networker backend: message generator and web handlers

    A shallow embedding of [backend/ai_generator.py] and of the stateful
    handlers of [backend/app.py], followed by the properties proved of them.

    Modelling conventions.
    - Python [str] is [string] (a sequence of bytes); [str.lower] lower-cases
      the ASCII letters.  The two needles the code searches for, "recruit"
      and "talent", are ASCII, and no non-ASCII character lower-cases to a
      text in which a new occurrence of either needle appears, so the
      substring tests agree with Python's on UTF-8 encoded text.
    - A Python call either returns a value or raises: [outcome].
    - [random.choice] takes the drawn number as an explicit argument.
    - [time.time()] readings are exact rationals, supplied by a clock. *)

From Stdlib Require Import Ascii QArith Qcanon.
From stdpp Require Import gmap strings list fin_maps pretty.

(** ** Python values, exceptions and outcomes *)

(** The values a profile field can hold once the JSON body is parsed:
    a string, or [None] (JSON [null]). *)
Inductive pyval : Type :=
  | PNone
  | PStr (s : string).

Global Instance pyval_eq_dec : EqDecision pyval.
Proof. solve_decision. Defined.

Inductive exn : Type :=
  | AttributeError
  | KeyError (k : string)
  | IndexError
  | ValueError
  | Unmodelled.

Global Instance exn_eq_dec : EqDecision exn.
Proof. solve_decision. Defined.

Inductive outcome (A : Type) : Type :=
  | Return (a : A)
  | Raise (e : exn).
Arguments Return {A} a.
Arguments Raise {A} e.

Definition bind {A B} (m : outcome A) (k : A -> outcome B) : outcome B :=
  match m with
  | Return a => k a
  | Raise e => Raise e
  end.

Declare Scope py_scope.
Delimit Scope py_scope with py.
Notation "x <- m ;; k" := (bind m (fun x => k))
  (at level 100, m at next level, right associativity) : py_scope.
Local Open Scope py_scope.

(** [try: body except Exception: handler] *)
Definition try_except {A} (body : outcome A) (handler : exn -> outcome A)
  : outcome A :=
  match body with
  | Return a => Return a
  | Raise e => handler e
  end.

(** ** The string operations the code uses *)

Module PyStr.

Definition is_upper (c : ascii) : bool :=
  let n := nat_of_ascii c in (65 <=? n)%nat && (n <=? 90)%nat.

Definition lower_char (c : ascii) : ascii :=
  if is_upper c then ascii_of_nat (nat_of_ascii c + 32) else c.

(** [s.lower()] *)
Fixpoint lower (s : string) : string :=
  match s with
  | EmptyString => EmptyString
  | String c s' => String (lower_char c) (lower s')
  end.

(** [needle in s] *)
Fixpoint contains (needle s : string) : bool :=
  String.prefix needle s ||
  match s with
  | EmptyString => false
  | String _ s' => contains needle s'
  end.

(** [str(v)], which is also what a replacement field without a format
    specification and an f-string interpolation produce. *)
Definition str (v : pyval) : string :=
  match v with
  | PNone => "None"
  | PStr s => s
  end.

(** [v.lower()]: only [str] has the method. *)
Definition lower_method (v : pyval) : outcome string :=
  match v with
  | PStr s => Return (lower s)
  | PNone => Raise AttributeError
  end.

Definition is_digit (c : ascii) : bool :=
  let n := nat_of_ascii c in (48 <=? n)%nat && (n <=? 57)%nat.

Fixpoint all_digits (s : string) : bool :=
  match s with
  | EmptyString => true
  | String c s' => is_digit c && all_digits s'
  end.

(** Characters that start a conversion, a format specification, an
    attribute or an index inside a replacement field. *)
Definition is_field_operator (c : ascii) : bool :=
  Ascii.eqb c "!" || Ascii.eqb c ":" || Ascii.eqb c "." || Ascii.eqb c "[".

(** Resolution of the replacement field [{name}] of
    [template.format( **kwargs)]: there are no positional arguments, so an
    empty or numeric name is out of range; any other name is looked up
    among the keywords. *)
Definition field_value (kwargs : gmap string pyval) (name : string)
  : outcome string :=
  if all_digits name then Raise IndexError
  else match kwargs !! name with
       | Some v => Return (str v)
       | None => Raise (KeyError name)
       end.

Inductive scan : Type :=
  | Text
  | Field (name : string).

Definition emit (c : ascii) (rest : outcome string) : outcome string :=
  s <- rest ;; Return (String c s).

(** [template.format( **kwargs)], scanning left to right.  Doubled braces
    are literal braces; a lone closing brace and an unterminated or nested
    field are [ValueError]s.  Fields with a conversion, a format
    specification, an attribute or an index are outside the modelled
    fragment: the scan stops with [Unmodelled]. *)
Fixpoint format_scan (kwargs : gmap string pyval) (m : scan) (s : string)
  : outcome string :=
  match m, s with
  | Text, EmptyString => Return EmptyString
  | Text, String c rest =>
      if Ascii.eqb c "{" then
        match rest with
        | String c' rest' =>
            if Ascii.eqb c' "{" then emit "{" (format_scan kwargs Text rest')
            else format_scan kwargs (Field EmptyString) rest
        | EmptyString => Raise ValueError
        end
      else if Ascii.eqb c "}" then
        match rest with
        | String c' rest' =>
            if Ascii.eqb c' "}" then emit "}" (format_scan kwargs Text rest')
            else Raise ValueError
        | EmptyString => Raise ValueError
        end
      else emit c (format_scan kwargs Text rest)
  | Field _, EmptyString => Raise ValueError
  | Field name, String c rest =>
      if Ascii.eqb c "}" then
        v <- field_value kwargs name ;;
        s' <- format_scan kwargs Text rest ;;
        Return (v +:+ s')
      else if Ascii.eqb c "{" then Raise ValueError
      else if is_field_operator c then Raise Unmodelled
      else format_scan kwargs (Field (name +:+ String c EmptyString)) rest
  end.

Definition format (template : string) (kwargs : gmap string pyval)
  : outcome string :=
  format_scan kwargs Text template.

End PyStr.

(** ** [random.choice] *)

(** [random.choice(seq)] is [seq[randbelow(len(seq))]] and raises
    [IndexError] on an empty sequence.  [draw] is the number the generator
    produces; [randbelow n] reduces it below [n]. *)
Definition random_choice {A} (seq : list A) (draw : nat) : outcome A :=
  match seq !! (draw `mod` length seq)%nat with
  | Some x => Return x
  | None => Raise IndexError
  end.

(** ** [backend/ai_generator.py] *)

Module AiGenerator.

Definition nl : string := String (ascii_of_nat 10) EmptyString.

(** A profile record: a [dict] from field names to values. *)
Abbreviation profile := (gmap string pyval).

(** [profile_data.get(key, default)] *)
Definition get (profile_data : profile) (key : string) (dflt : pyval)
  : pyval :=
  default dflt (profile_data !! key).

(** [key in profile_data] *)
Definition has_key (profile_data : profile) (key : string) : bool :=
  bool_decide (is_Some (profile_data !! key)).

Definition RECRUITER_FALLBACK : list string :=
  [ "I'm currently exploring internship opportunities in {industry} and would appreciate connecting with someone from {company}'s talent team.";
    "As a {your_role} passionate about {industry}, I'd love to connect with {company}'s recruitment team to stay updated on future opportunities.";
    "I'm impressed by {company}'s work in {industry} and would welcome the chance to connect with your recruitment team.";
    "Would love to stay connected with {company}'s talent acquisition team as I explore internship opportunities in {industry}." ].

Definition ALUMNI_FALLBACK : list string :=
  [ "As a fellow {school} graduate currently exploring {industry} opportunities, I'd love to connect and hear about your journey from {school} to {current_role} at {company}.";
    "I noticed we both attended {school} - would you be open to sharing how your experience there helped shape your path to {current_role} at {company}?";
    "As a current {school} student interested in {industry}, I'd appreciate connecting with alumni like yourself to learn about your career journey.";
    "Your path from {school} to {current_role} at {company} is inspiring! Would you be open to connecting and sharing some career insights?" ].

(** *** [get_fallback_message] *)

(** Line 79: [is_recruiter = 'recruit' in profile_data.get('title', '').lower()] *)
Definition fallback_is_recruiter (profile_data : profile) : outcome bool :=
  title <- PyStr.lower_method (get profile_data "title" (PStr "")) ;;
  Return (PyStr.contains "recruit" title).

(** Lines 47 and 80: [is_alumni = 'school' in profile_data] *)
Definition is_alumni (profile_data : profile) : bool :=
  has_key profile_data "school".

(** Lines 83-91: the dictionary [template_vars]. *)
Definition template_vars (profile_data : profile) : gmap string pyval :=
  <["name" := get profile_data "name" (PStr "there")]>
  (<["title" := get profile_data "title" (PStr "professional")]>
  (<["company" := get profile_data "company" (PStr "your company")]>
  (<["school" := get profile_data "school" (PStr "our shared alma mater")]>
  (<["industry" := get profile_data "industry" (PStr "this field")]>
  (<["your_role" := get profile_data "your_role" (PStr "aspiring professional")]>
  (<["current_role" := get profile_data "title" (PStr "current position")]>
   ∅)))))).

(** Lines 93-98: the template drawn for the audience. *)
Definition choose_template (is_recruiter is_alumni : bool) (draw : nat)
  : outcome string :=
  if is_recruiter then random_choice RECRUITER_FALLBACK draw
  else if is_alumni then random_choice ALUMNI_FALLBACK draw
  else random_choice (RECRUITER_FALLBACK ++ ALUMNI_FALLBACK) draw.

Definition get_fallback_message (profile_data : profile) (draw : nat)
  : outcome pyval :=
  is_recruiter <- fallback_is_recruiter profile_data ;;
  let is_alumni := is_alumni profile_data in
  let template_vars := template_vars profile_data in
  template <- choose_template is_recruiter is_alumni draw ;;
  message <- PyStr.format template template_vars ;;
  Return (PStr message).

(** *** [generate_message] *)

(** Lines 38-43: the local variables of the [try] block. *)
Record details : Type := Details {
  name : pyval;
  title : string;
  company : pyval;
  school : pyval;
  industry : pyval;
  your_role : pyval
}.

Definition extract_details (profile_data : profile) : outcome details :=
  let name := get profile_data "name" (PStr "there") in
  title <- PyStr.lower_method (get profile_data "title" (PStr "professional")) ;;
  let company := get profile_data "company" (PStr "your company") in
  let school := get profile_data "school" (PStr "our alma mater") in
  let industry := get profile_data "industry" (PStr "this field") in
  let your_role := get profile_data "your_role" (PStr "aspiring professional") in
  Return (Details name title company school industry your_role).

(** Line 46: [is_recruiter = 'recruit' in title or 'talent' in title] *)
Definition prompt_is_recruiter (title : string) : bool :=
  PyStr.contains "recruit" title || PyStr.contains "talent" title.

Definition indent8 : string := "        ".
Definition indent12 : string := "            ".

(** Lines 50-56: the head of the prompt. *)
Definition prompt_head (name : pyval) : string :=
  "Create a LinkedIn connection message for " +:+ PyStr.str name +:+
  " with these rules:" +:+ nl +:+
  indent8 +:+ "- Max 2 sentences" +:+ nl +:+
  indent8 +:+ "- Professional but approachable tone" +:+ nl +:+
  indent8 +:+ "- No emojis or slang" +:+ nl +:+
  indent8 +:+ "- Skip greetings/signatures" +:+ nl +:+
  indent8 +:+ nl +:+
  indent8 +:+ "Target Profile: ".

(** Lines 59-61. *)
Definition recruiter_clause (d : details) : string :=
  "Recruiter at " +:+ PyStr.str (company d) +:+ " in " +:+
  PyStr.str (industry d) +:+ ". " +:+ nl +:+
  indent12 +:+ "Goal: Express interest in internship opportunities, highlight relevant skills (" +:+
  PyStr.str (your_role d) +:+ "), " +:+ nl +:+
  indent12 +:+ "and request to stay connected.".

(** Lines 63-65. *)
Definition alumni_clause (d : details) : string :=
  "Alumni from " +:+ PyStr.str (school d) +:+ " now working as " +:+
  title d +:+ " at " +:+ PyStr.str (company d) +:+ "." +:+ nl +:+
  indent12 +:+ "Goal: Establish common ground, express interest in their career journey, " +:+ nl +:+
  indent12 +:+ "and request brief insights about transitioning from school to their role.".

(** Lines 67-69. *)
Definition generic_clause (d : details) : string :=
  "Generic professional (" +:+ title d +:+ " at " +:+
  PyStr.str (company d) +:+ ")." +:+ nl +:+
  indent12 +:+ "Goal: Create connection based on shared industry interests (" +:+
  PyStr.str (industry d) +:+ ") " +:+ nl +:+
  indent12 +:+ "and request knowledge sharing.".

(** Lines 38-69: the body of the [try] block, whose last effect is to
    bind the local [prompt]. *)
Definition build_prompt (profile_data : profile) : outcome string :=
  d <- extract_details profile_data ;;
  let is_recruiter := prompt_is_recruiter (title d) in
  let is_alumni := is_alumni profile_data in
  let prompt := prompt_head (name d) in
  Return (if is_recruiter then prompt +:+ recruiter_clause d
          else if is_alumni then prompt +:+ alumni_clause d
          else prompt +:+ generic_clause d).

(** [not DEEPSEEK_API_KEY]: the variable is unset or empty. *)
Definition no_api_key (DEEPSEEK_API_KEY : option string) : bool :=
  match DEEPSEEK_API_KEY with
  | None => true
  | Some k => bool_decide (k = "")
  end.

(** What a call leaves behind: the lines printed and the outcome. *)
Record run : Type := Run {
  stdout : list string;
  result : outcome pyval
}.

(** [generate_message].  With a key, the [try] block builds the prompt
    and ends there: no call to a provider follows and there is no
    [return], so control falls off the end of the function, which makes
    the call return [None]. *)
Definition generate_message (DEEPSEEK_API_KEY : option string)
    (profile_data : profile) (draw : nat) : run :=
  if no_api_key DEEPSEEK_API_KEY then
    Run ["Warning: No API key. Using fallback templates."]
        (get_fallback_message profile_data draw)
  else
    Run []
        (try_except
           (prompt <- build_prompt profile_data ;; Return PNone)
           (fun e => get_fallback_message profile_data draw)).

End AiGenerator.

(** ** [backend/app.py] *)

Module App.

Local Open Scope Qc_scope.

(** JSON scalars as the handlers see them.  Numbers are exact rationals, so
    that two equal numbers are the same dictionary key. *)
Inductive jval : Type :=
  | JNull
  | JStr (s : string)
  | JNum (x : Qc).

Global Instance jval_eq_dec : EqDecision jval.
Proof. solve_decision. Defined.

Global Instance jval_countable : Countable jval.
Proof.
  refine (inj_countable'
            (fun v => match v with
                      | JNull => inl ()
                      | JStr s => inr (inl s)
                      | JNum x => inr (inr x)
                      end)
            (fun c => match c with
                      | inl _ => JNull
                      | inr (inl s) => JStr s
                      | inr (inr x) => JNum x
                      end) _).
  by intros [].
Defined.

(** A JSON object with scalar values: a submitted profile, or the body of
    a connection request. *)
Abbreviation jobject := (gmap string jval).

(** The dictionary built at lines 158-162. *)
Record connection_record : Type := ConnectionRecord {
  profileUrl : jval;
  timestamp : jval;
  messageUsed : jval
}.

(** The module-level variables, and the number of clock readings taken so
    far. *)
Record state : Type := State {
  profiles_data : gmap jval jobject;
  connection_history : list connection_record;
  request_timestamps : list Qc;
  ticks : nat
}.

Definition initial : state := State ∅ [] [] 0.

Definition set_profiles_data (st : state) (v : gmap jval jobject) : state :=
  State v (connection_history st) (request_timestamps st) (ticks st).

Definition set_connection_history (st : state) (v : list connection_record)
  : state :=
  State (profiles_data st) v (request_timestamps st) (ticks st).

Definition set_request_timestamps (st : state) (v : list Qc) : state :=
  State (profiles_data st) (connection_history st) v (ticks st).

(** What [jsonify] is given, and the status code. *)
Inductive rval : Type :=
  | RBool (b : bool)
  | RInt (n : Z)
  | RNum (x : Qc)
  | RStr (s : string).

Record response : Type := Response {
  status_code : nat;
  body : list (string * rval)
}.

(** A request whose body parses to [B]. *)
Record request (B : Type) : Type := Request {
  is_json : bool;
  json : B
}.
Arguments Request {B} is_json json.
Arguments is_json {B} r.
Arguments json {B} r.

Definition hour : Qc := Qc_of_Z 3600.

Section Handlers.

(** The clock [time.time()] reads: its [n]-th reading is [clock n]. *)
Variable clock : nat -> Qc.

(** [int(os.getenv('MAX_REQUESTS_PER_HOUR', 20))] *)
Variable MAX_REQUESTS_PER_HOUR : Z.

(** [time.time()] *)
Definition time_time (st : state) : Qc * state :=
  (clock (ticks st),
   State (profiles_data st) (connection_history st) (request_timestamps st)
         (S (ticks st))).

Definition check_rate_limit (st : state) : bool * state :=
  let '(current_time, st) := time_time st in
  let one_hour_ago := current_time - hour in
  let st :=
    set_request_timestamps st
      (filter (fun ts => one_hour_ago < ts) (request_timestamps st)) in
  (bool_decide (MAX_REQUESTS_PER_HOUR <= Z.of_nat (length (request_timestamps st)))%Z,
   st).

Definition update_rate_limit (st : state) : state :=
  let '(now, st) := time_time st in
  set_request_timestamps st (request_timestamps st ++ [now]).

(** [status] *)
Definition status (st : state) : response * state :=
  let '(now, st') := time_time st in
  (Response 200
     [("status", RStr "online");
      ("profiles_collected", RInt (Z.of_nat (size (profiles_data st))));
      ("connections_sent", RInt (Z.of_nat (length (connection_history st))));
      ("timestamp", RNum now)],
   st').

(** Lines 107-110: one turn of the loop over [data['profiles']]. *)
Definition store_profile (store : gmap jval jobject) (profile : jobject)
  : gmap jval jobject :=
  match profile !! "profileUrl" with
  | Some url => <[url := profile]> store
  | None => store
  end.

(** [collect_profiles].  The body is [None] when the parsed JSON is empty
    or has no ['profiles'] entry, and otherwise the list of submitted
    profile objects. *)
Definition collect_profiles (req : request (option (list jobject)))
    (st : state) : response * state :=
  if negb (is_json req) then
    (Response 400 [("error", RStr "Request must be JSON")], st)
  else
    match json req with
    | None => (Response 400 [("error", RStr "No profiles provided")], st)
    | Some profiles =>
        let st :=
          set_profiles_data st (foldl store_profile (profiles_data st) profiles) in
        (Response 200
           [("success", RBool true);
            ("profiles_count", RInt (Z.of_nat (size (profiles_data st))));
            ("message",
             RStr ("Stored " +:+ pretty (length profiles) +:+ " profiles"))],
         st)
    end.

(** Lines 167-169: the stored profile is updated in place. *)
Definition mark_connected (ts : jval) (profile : jobject) : jobject :=
  <["connectionTimestamp" := ts]> (<["status" := JStr "connected"]> profile).

(** [handle_exception]: what the application answers when a handler
    raises. *)
Definition handle_exception (message : string) : response :=
  Response 500 [("error", RStr "Internal server error");
                ("message", RStr message)].

(** [record_connection].  The default of [data.get('timestamp', ...)] is
    evaluated before the lookup, so the clock is read a third time whether
    or not the request carries a timestamp. *)
Definition record_connection (req : request jobject) (st : state)
  : response * state :=
  if negb (is_json req) then
    (Response 400 [("error", RStr "Request must be JSON")], st)
  else
    let data := json req in
    if bool_decide (data = ∅) || negb (bool_decide (is_Some (data !! "profileUrl")))
    then (Response 400 [("error", RStr "No profile URL provided")], st)
    else
      let '(limited, st) := check_rate_limit st in
      if limited then
        (Response 429
           [("error", RStr "Rate limit exceeded");
            ("message",
             RStr ("Maximum of " +:+ pretty MAX_REQUESTS_PER_HOUR +:+
                   " connections per hour allowed"))],
         st)
      else
        let st := update_rate_limit st in
        match data !! "profileUrl" with
        | None => (handle_exception "'profileUrl'", st)
        | Some profile_url =>
            let '(now, st) := time_time st in
            let connection_record :=
              ConnectionRecord profile_url
                (default (JNum now) (data !! "timestamp"))
                (default JNull (data !! "messageUsed")) in
            let st :=
              set_connection_history st
                (connection_history st ++ [connection_record]) in
            let st :=
              if bool_decide (is_Some (profiles_data st !! profile_url)) then
                set_profiles_data st
                  (alter (mark_connected (timestamp connection_record))
                         profile_url (profiles_data st))
              else st in
            (Response 200
               [("success", RBool true);
                ("connections_count",
                 RInt (Z.of_nat (length (connection_history st))));
                ("message", RStr "Connection recorded successfully")],
             st)
        end.

(** The requests that touch the state or the clock. *)
Inductive call : Type :=
  | CallStatus
  | CallCollectProfiles (req : request (option (list jobject)))
  | CallRecordConnection (req : request jobject).

Definition serve (c : call) (st : state) : response * state :=
  match c with
  | CallStatus => status st
  | CallCollectProfiles req => collect_profiles req st
  | CallRecordConnection req => record_connection req st
  end.

(** The state after a sequence of requests, served one after the other. *)
Definition run_calls (cs : list call) (st : state) : state :=
  foldl (fun st c => snd (serve c st)) st cs.

End Handlers.

End App.

(** ** [backend/app.py]: the profile listing *)

(** [get_profiles] lists the values of [profiles_data] in the order of the
    dictionary, which is the order in which the keys were first inserted.
    The store is therefore taken here with its order: a list of bindings
    without repeated keys. *)
Module OrderedStore.

Import App.

Abbreviation odict := (list (jval * jobject)).

(** [d[k] = v]: an existing key keeps its place and takes the new value; a
    new key goes to the end. *)
Fixpoint setitem (k : jval) (v : jobject) (d : odict) : odict :=
  match d with
  | [] => [(k, v)]
  | (k', v') :: d' =>
      if decide (k' = k) then (k', v) :: d' else (k', v') :: setitem k v d'
  end.

(** [k in d] *)
Definition contains_key (k : jval) (d : odict) : bool :=
  bool_decide (k ∈ d.*1).

(** [d[k]] updated in place by [f], for a key of [d]. *)
Definition update_item (f : jobject -> jobject) (k : jval) (d : odict)
  : odict :=
  map (fun kv => if decide (kv.1 = k) then (kv.1, f kv.2) else kv) d.

(** [d.values()] *)
Definition values (d : odict) : list jobject := d.*2.

(** Lines 107-110 of [collect_profiles], on the ordered store. *)
Definition store_profile (d : odict) (profile : jobject) : odict :=
  match profile !! "profileUrl" with
  | Some url => setitem url profile d
  | None => d
  end.

Definition store_profiles (d : odict) (profiles : list jobject) : odict :=
  foldl store_profile d profiles.

(** Lines 167-169 of [record_connection], on the ordered store. *)
Definition mark_profile (profile_url ts : jval) (d : odict) : odict :=
  if contains_key profile_url d
  then update_item (mark_connected ts) profile_url d
  else d.

(** [get_profiles]: the list under ['profiles'] in the answer.
    [status_filter] is [request.args.get('status')]; an absent and an empty
    parameter are both false in [if status_filter:]. *)
Definition get_profiles (status_filter : option string) (d : odict)
  : list jobject :=
  match status_filter with
  | Some s =>
      if bool_decide (s = "") then values d
      else filter (fun p => p !! "status" = Some (JStr s)) (values d)
  | None => values d
  end.

(** The dictionary without its order. *)
Definition to_map (d : odict) : gmap jval jobject := list_to_map d.

End OrderedStore.

(** ** [backend/app.py]: the message endpoint *)

Module AppGenerate.

Import App.

(** What [jsonify] is given there: a flag, or a value of the generator. *)
Inductive mval : Type :=
  | MBool (b : bool)
  | MVal (v : pyval).

Record mresponse : Type := MResponse {
  m_status_code : nat;
  m_body : list (string * mval)
}.

Section Endpoint.

(** [str(e)], the text the interpreter gives an exception. *)
Variable exn_str : exn -> string.

(** The environment variable read by [ai_generator]. *)
Variable DEEPSEEK_API_KEY : option string.

(** [generate_message] of [app.py]: the lines printed and the answer.  The
    body is [None] when the parsed JSON is empty or has no ['profileData']
    entry, and otherwise the profile found there. *)
Definition generate_message (req : request (option AiGenerator.profile))
    (draw : nat) : list string * mresponse :=
  if negb (is_json req) then
    ([], MResponse 400 [("error", MVal (PStr "Request must be JSON"))])
  else
    match json req with
    | None =>
        ([], MResponse 400 [("error", MVal (PStr "No profile data provided"))])
    | Some profile_data =>
        let r := AiGenerator.generate_message DEEPSEEK_API_KEY profile_data draw in
        (AiGenerator.stdout r,
         match AiGenerator.result r with
         | Return message =>
             MResponse 200 [("success", MBool true); ("message", MVal message)]
         | Raise e =>
             MResponse 500
               [("success", MBool false);
                ("error", MVal (PStr (exn_str e)));
                ("message",
                 MVal (PStr "I came across your profile and would love to connect!"))]
         end)
    end.

End Endpoint.

End AppGenerate.

(** * Vocabulary of the statements *)

Import AiGenerator.
Import App.

(** *** The message generator *)

(** The title of a profile is text: the key is absent or holds a string.
    Every ProfileRecord satisfies this, its fields being optional strings. *)
Definition title_is_str (p : profile) : bool :=
  match p !! "title" with
  | Some PNone => false
  | _ => true
  end.

(** The title as the fallback renderer reads it: the empty string when the
    key is absent. *)
Definition title_text (p : profile) : string :=
  PyStr.str (get p "title" (PStr "")).

(** The audience categories of the specification. *)
Inductive audience : Type :=
  | Recruiter
  | Alumni
  | Generic.

Global Instance audience_eq_dec : EqDecision audience.
Proof. solve_decision. Defined.

(** The pool the specification assigns to a profile in the fallback
    renderer: recruiter test on "recruit" only, then the alumni test, and
    for the generic audience the two pools together. *)
Definition fallback_audience (p : profile) : audience :=
  if PyStr.contains "recruit" (PyStr.lower (title_text p)) then Recruiter
  else if has_key p "school" then Alumni
  else Generic.

Definition pool_of (a : audience) : list string :=
  match a with
  | Recruiter => RECRUITER_FALLBACK
  | Alumni => ALUMNI_FALLBACK
  | Generic => RECRUITER_FALLBACK ++ ALUMNI_FALLBACK
  end.

(** The seven keyword arguments of [template.format]. *)
Definition vars_of (n t c s i y cr : pyval) : gmap string pyval :=
  <["name" := n]> (<["title" := t]> (<["company" := c]> (<["school" := s]>
  (<["industry" := i]> (<["your_role" := y]> (<["current_role" := cr]> ∅)))))).

(** The classification as the specification words it: the title, "professional"
    when missing, is lower-cased; "recruit" or "talent" in it makes a
    recruiter; otherwise a 'school' key makes an alumnus; otherwise the
    profile is generic. *)
Definition prompt_audience (p : profile) : audience :=
  let title := PyStr.lower (PyStr.str (get p "title" (PStr "professional"))) in
  if PyStr.contains "recruit" title || PyStr.contains "talent" title
  then Recruiter
  else if has_key p "school" then Alumni
  else Generic.

(** The goal clause the prompt carries for an audience. *)
Definition clause_of (a : audience) (d : details) : string :=
  match a with
  | Recruiter => recruiter_clause d
  | Alumni => alumni_clause d
  | Generic => generic_clause d
  end.

(** The rendering of a template for a profile, as [get_fallback_message]
    returns it. *)
Definition render (p : profile) (template : string) : outcome pyval :=
  message <- PyStr.format template (template_vars p) ;;
  Return (PStr message).






(** *** The web handlers *)

(** The timestamps recorded within the hour before [now]. *)
Definition recent (now : Qc) (timestamps : list Qc) : list Qc :=
  filter (fun ts => now - hour < ts)%Qc timestamps.


(** The submitted profiles that carry the URL [url]. *)
Definition submitted_under (url : jval) (profiles : list jobject)
  : list jobject :=
  filter (fun profile => profile !! "profileUrl" = Some url) profiles.

(** The clock never runs backwards. *)
Definition monotone (clock : nat -> Qc) : Prop :=
  forall n, (clock n <= clock (S n))%Qc.

(** Every recorded timestamp is an earlier reading of the clock. *)
Definition timestamps_read (clock : nat -> Qc) (st : state) : Prop :=
  forall ts, ts ∈ request_timestamps st ->
             exists n, (n < ticks st)%nat /\ ts = clock n.

(** *** Inputs of the concrete runs *)

(** The profile of the module's own self-test. *)
Definition test_profile : profile :=
  <["name" := PStr "John Smith"]>
  (<["title" := PStr "Software Engineer"]>
  (<["company" := PStr "Tech Innovations"]> ∅)).

(** A recruiter who also names a school. *)
Definition recruiter_alumnus : profile :=
  <["title" := PStr "Recruiter"]> (<["school" := PStr "State U"]> ∅).

(** A title with "talent" and without "recruit". *)
Definition talent_partner : profile :=
  <["title" := PStr "Talent Partner"]> ∅.

(** A generic profile. *)
Definition engineer : profile := <["title" := PStr "Engineer"]> ∅.

(** A clock read once a minute. *)
Definition minute_clock (n : nat) : Qc := Qc_of_Z (60 * Z.of_nat n).

(** A well-formed connection request. *)
Definition connect_alice : request jobject :=
  Request true (<["profileUrl" := JStr "https://www.linkedin.com/in/alice"]> ∅).

(** Two connections recorded under a cap of two. *)
Definition two_recorded : state :=
  run_calls minute_clock 2
    [CallRecordConnection connect_alice; CallRecordConnection connect_alice]
    initial.

(** *** Runs of the web handlers *)

(** The reading [update_rate_limit] records when the call is an accepted
    connection request, read off the answer. *)
Definition accepted_at (clock : nat -> Qc) (MAX_REQUESTS_PER_HOUR : Z)
    (c : call) (st : state) : list Qc :=
  match c with
  | CallRecordConnection req =>
      if bool_decide
           (status_code (fst (record_connection clock MAX_REQUESTS_PER_HOUR req st))
            = 200%nat)
      then [clock (S (ticks st))]
      else []
  | _ => []
  end.

(** The state after a sequence of requests together with the readings of
    all the connection requests accepted on the way. *)
Definition run_log (clock : nat -> Qc) (MAX_REQUESTS_PER_HOUR : Z)
    (cs : list call) : state * list Qc :=
  foldl (fun sa c =>
           (snd (serve clock MAX_REQUESTS_PER_HOUR c sa.1),
            sa.2 ++ accepted_at clock MAX_REQUESTS_PER_HOUR c sa.1))
        (initial, []) cs.

(** The URL a submitted profile carries. *)
Definition url_of (profile : jobject) : option jval :=
  profile !! "profileUrl".

(** The fallback messages written out: each template with the values in
    the place of its fields. *)
Definition recruiter_messages (company industry your_role : string)
  : list string :=
  [ "I'm currently exploring internship opportunities in " +:+ industry +:+
    " and would appreciate connecting with someone from " +:+ company +:+
    "'s talent team.";
    "As a " +:+ your_role +:+ " passionate about " +:+ industry +:+
    ", I'd love to connect with " +:+ company +:+
    "'s recruitment team to stay updated on future opportunities.";
    "I'm impressed by " +:+ company +:+ "'s work in " +:+ industry +:+
    " and would welcome the chance to connect with your recruitment team.";
    "Would love to stay connected with " +:+ company +:+
    "'s talent acquisition team as I explore internship opportunities in " +:+
    industry +:+ "." ].

Definition alumni_messages (company school industry current_role : string)
  : list string :=
  [ "As a fellow " +:+ school +:+ " graduate currently exploring " +:+
    industry +:+
    " opportunities, I'd love to connect and hear about your journey from " +:+
    school +:+ " to " +:+ current_role +:+ " at " +:+ company +:+ ".";
    "I noticed we both attended " +:+ school +:+
    " - would you be open to sharing how your experience there helped shape your path to " +:+
    current_role +:+ " at " +:+ company +:+ "?";
    "As a current " +:+ school +:+ " student interested in " +:+ industry +:+
    ", I'd appreciate connecting with alumni like yourself to learn about your career journey.";
    "Your path from " +:+ school +:+ " to " +:+ current_role +:+ " at " +:+
    company +:+
    " is inspiring! Would you be open to connecting and sharing some career insights?" ].

(** The texts of the variables a profile gives the templates. *)
Definition company_text (p : profile) : string :=
  PyStr.str (get p "company" (PStr "your company")).

Definition school_text (p : profile) : string :=
  PyStr.str (get p "school" (PStr "our shared alma mater")).

Definition industry_text (p : profile) : string :=
  PyStr.str (get p "industry" (PStr "this field")).

Definition your_role_text (p : profile) : string :=
  PyStr.str (get p "your_role" (PStr "aspiring professional")).

Definition current_role_text (p : profile) : string :=
  PyStr.str (get p "title" (PStr "current position")).

(** The messages of the pool of an audience, written out for a profile. *)
Definition messages_of (a : audience) (p : profile) : list string :=
  let recruiter :=
    recruiter_messages (company_text p) (industry_text p) (your_role_text p) in
  let alumni :=
    alumni_messages (company_text p) (school_text p) (industry_text p)
                    (current_role_text p) in
  match a with
  | Recruiter => recruiter
  | Alumni => alumni
  | Generic => recruiter ++ alumni
  end.

(** The binding a submitted profile is stored as. *)
Definition binding_of (profile : jobject) : option (jval * jobject) :=
  match url_of profile with
  | Some url => Some (url, profile)
  | None => None
  end.

(** The record an accepted request appends. *)
Definition record_of (clock : nat -> Qc) (req : request jobject) (st : state)
    (url : jval)
  : connection_record :=
  ConnectionRecord url
    (default (JNum (clock (S (S (ticks st))))) (json req !! "timestamp"))
    (default JNull (json req !! "messageUsed")).

(** The cut-offs of all the checks made so far lie at or before [c]. *)
Definition past_cutoffs (clock : nat -> Qc) (st : state) (c : Qc) : Prop :=
  forall k, (k < ticks st)%nat -> (clock k - hour <= c)%Qc.

(** An alumnus, with company and school. *)
Definition data_scientist : profile :=
  <["title" := PStr "Data Scientist"]>
  (<["company" := PStr "Globex"]> (<["school" := PStr "Tech U"]> ∅)).

(** A clock read once an hour, first at the end of the first hour. *)
Definition hourly_clock (n : nat) : Qc := Qc_of_Z (3600 * (Z.of_nat n + 1)).

(** One connection recorded at time zero, and nothing else. *)
Definition one_old : state := State ∅ [] [Qc_of_Z 0] 0.

(** The state after the two profiles below were collected. *)
Definition two_collected : state :=
  State (<[JStr "https://www.linkedin.com/in/alice" :=
             <["profileUrl" := JStr "https://www.linkedin.com/in/alice"]>
             (<["name" := JStr "Alice"]> ∅)]>
         (<[JStr "https://www.linkedin.com/in/bob" :=
              <["profileUrl" := JStr "https://www.linkedin.com/in/bob"]>
              (<["name" := JStr "Bob"]> ∅)]> ∅))
        [] [] 0.

(** A clock that is set back: its first three readings are 10000, the
    later ones 7000. *)
Definition set_back_clock (n : nat) : Qc :=
  if (n <=? 2)%nat then Qc_of_Z 10000 else Qc_of_Z 7000.

(** One connection recorded before the clock is set back. *)
Definition recorded_before_set_back : state :=
  run_calls set_back_clock 2 [CallRecordConnection connect_alice] initial.

(** A profile sent with a JSON null for its title. *)
Definition null_title : profile := <["title" := PNone]> ∅.

(** Two profiles under different URLs, as a client submits them. *)
Definition alice : jobject :=
  <["profileUrl" := JStr "https://www.linkedin.com/in/alice"]>
  (<["name" := JStr "Alice"]> ∅).

Definition bob : jobject :=
  <["profileUrl" := JStr "https://www.linkedin.com/in/bob"]>
  (<["name" := JStr "Bob"]> ∅).

(** * Properties *)

(** ** Auxiliary facts *)

Lemma random_choice_lookup {A} (l : list A) (d : nat) (x : A) :
  random_choice l d = Return x <-> l !! (d `mod` length l)%nat = Some x.
Proof.
  unfold random_choice. destruct (l !! _); split; congruence.
Qed.


Lemma random_choice_small {A} (l : list A) (i : nat) (x : A) :
  l !! i = Some x -> random_choice l i = Return x.
Proof.
  intros Hi. apply random_choice_lookup.
  rewrite Nat.mod_small; [done|]. by eapply lookup_lt_Some.
Qed.

Lemma random_choice_some {A} (l : list A) (d : nat) :
  l <> [] -> exists x, random_choice l d = Return x /\ x ∈ l.
Proof.
  intros Hl.
  assert (d `mod` length l < length l)%nat as Hlt.
  { apply Nat.mod_upper_bound. destruct l; [done|simpl; lia]. }
  destruct (lookup_lt_is_Some_2 _ _ Hlt) as [x Hx].
  exists x. split; [by apply random_choice_lookup|].
  by eapply list_elem_of_lookup_2.
Qed.

(** Over one period of draws every position of the sequence is chosen
    exactly once, in order. *)
Lemma random_choice_period {A} (l : list A) :
  map (random_choice l) (seq 0 (length l)) = map Return l.
Proof.
  apply list_eq. intros i.
  rewrite !list_lookup_fmap.
  destruct (l !! i) as [x|] eqn:Hi; simpl.
  - rewrite lookup_seq_lt; [|by eapply lookup_lt_Some]. simpl.
    f_equal. by apply random_choice_small.
  - rewrite lookup_seq_ge; [done|]. by apply lookup_ge_None.
Qed.

Lemma title_is_str_get (p : profile) (dflt : string) :
  title_is_str p = true ->
  exists s, get p "title" (PStr dflt) = PStr s.
Proof.
  unfold title_is_str, get. destruct (p !! "title") as [[|s]|]; simpl; eauto.
  discriminate.
Qed.

Lemma fallback_is_recruiter_str (p : profile) :
  title_is_str p = true ->
  fallback_is_recruiter p
  = Return (PyStr.contains "recruit" (PyStr.lower (title_text p))).
Proof.
  intros Hp. unfold fallback_is_recruiter, title_text.
  destruct (title_is_str_get p "" Hp) as [s ->]. done.
Qed.

Lemma choose_template_pool (p : profile) (d : nat) :
  choose_template (PyStr.contains "recruit" (PyStr.lower (title_text p)))
                  (is_alumni p) d
  = random_choice (pool_of (fallback_audience p)) d.
Proof.
  unfold choose_template, fallback_audience, is_alumni.
  by repeat case_match.
Qed.

Lemma template_vars_eq (p : profile) :
  template_vars p
  = vars_of (get p "name" (PStr "there"))
            (get p "title" (PStr "professional"))
            (get p "company" (PStr "your company"))
            (get p "school" (PStr "our shared alma mater"))
            (get p "industry" (PStr "this field"))
            (get p "your_role" (PStr "aspiring professional"))
            (get p "title" (PStr "current position")).
Proof. reflexivity. Qed.

Lemma pools_split (t : string) (a : audience) :
  t ∈ pool_of a -> t ∈ RECRUITER_FALLBACK ++ ALUMNI_FALLBACK.
Proof.
  destruct a; unfold pool_of; intros Ht; [apply elem_of_app; auto ..|done].
Qed.

(** Every template of either pool formats without error, whatever the
    seven values are, and the message starts with a character of the
    template. *)
Lemma format_pool_template (t : string) (n ti c s i y cr : pyval) :
  t ∈ RECRUITER_FALLBACK ++ ALUMNI_FALLBACK ->
  exists c0 out,
    PyStr.format t (vars_of n ti c s i y cr) = Return (String c0 out).
Proof.
  intros Ht. unfold RECRUITER_FALLBACK, ALUMNI_FALLBACK in Ht. simpl in Ht.
  repeat (apply elem_of_cons in Ht as [-> | Ht]);
    [vm_compute; eauto .. | by apply elem_of_nil in Ht].
Qed.

Lemma format_pool_template_vars (t : string) (p : profile) :
  t ∈ RECRUITER_FALLBACK ++ ALUMNI_FALLBACK ->
  exists c0 out, PyStr.format t (template_vars p) = Return (String c0 out).
Proof.
  rewrite template_vars_eq. apply format_pool_template.
Qed.

Lemma get_fallback_message_str (p : profile) (d : nat) :
  title_is_str p = true ->
  get_fallback_message p d
  = (template <- random_choice (pool_of (fallback_audience p)) d ;;
     message <- PyStr.format template (template_vars p) ;;
     Return (PStr message)).
Proof.
  intros Hp. unfold get_fallback_message.
  rewrite (fallback_is_recruiter_str p Hp). simpl.
  by rewrite choose_template_pool.
Qed.

Lemma pool_of_nonempty (a : audience) : pool_of a <> [].
Proof. by destruct a. Qed.

(** The fallback renderer returns the rendering of the template at the
    drawn position of the audience's pool, and the rendering is not
    empty. *)
Lemma get_fallback_message_total (p : profile) (d : nat) :
  title_is_str p = true ->
  exists t c0 out,
    pool_of (fallback_audience p)
      !! (d `mod` length (pool_of (fallback_audience p)))%nat = Some t /\
    PyStr.format t (template_vars p) = Return (String c0 out) /\
    get_fallback_message p d = Return (PStr (String c0 out)).
Proof.
  intros Hp.
  destruct (random_choice_some (pool_of (fallback_audience p)) d
              (pool_of_nonempty _)) as (t & Hc & Ht).
  apply pools_split in Ht.
  destruct (format_pool_template_vars t p Ht) as (c0 & out & Hf).
  exists t, c0, out. split; [by apply random_choice_lookup|]. split; [done|].
  rewrite (get_fallback_message_str p d Hp), Hc. simpl. by rewrite Hf.
Qed.

Lemma extract_details_str (p : profile) :
  title_is_str p = true ->
  exists d, extract_details p = Return d.
Proof.
  intros Hp. unfold extract_details.
  destruct (title_is_str_get p "professional" Hp) as [s ->]. simpl. eauto.
Qed.

Lemma build_prompt_str (p : profile) :
  title_is_str p = true ->
  exists prompt, build_prompt p = Return prompt.
Proof.
  intros Hp. unfold build_prompt.
  destruct (extract_details_str p Hp) as [d ->]. simpl. eauto.
Qed.

(** With a key configured and a textual title, the call returns [None]. *)
Lemma generate_message_with_key (key : string) (p : profile) (d : nat) :
  key <> "" -> title_is_str p = true ->
  generate_message (Some key) p d = Run [] (Return PNone).
Proof.
  intros Hk Hp. unfold generate_message, no_api_key.
  rewrite bool_decide_eq_false_2 by done.
  destruct (build_prompt_str p Hp) as [prompt ->]. done.
Qed.

(** With a textual title the call never raises, with or without a key. *)
Lemma generate_message_never_raises (key : option string) (p : profile)
    (d : nat) :
  title_is_str p = true ->
  exists v, result (generate_message key p d) = Return v.
Proof.
  intros Hp. unfold generate_message.
  destruct (no_api_key key); simpl.
  - destruct (get_fallback_message_total p d Hp) as (t & c0 & out & _ & _ & ->).
    eauto.
  - destruct (build_prompt_str p Hp) as [prompt ->]. simpl. eauto.
Qed.

(** Without a key, the call returns a non-empty message. *)
Lemma generate_message_without_key (key : option string) (p : profile)
    (d : nat) :
  no_api_key key = true -> title_is_str p = true ->
  exists c0 out,
    result (generate_message key p d) = Return (PStr (String c0 out)).
Proof.
  intros Hk Hp. unfold generate_message. rewrite Hk. simpl.
  destruct (get_fallback_message_total p d Hp) as (t & c0 & out & _ & _ & ->).
  eauto.
Qed.

(** The eight templates are pairwise different. *)
Lemma pools_NoDup : NoDup (RECRUITER_FALLBACK ++ ALUMNI_FALLBACK).
Proof. apply (bool_decide_unpack _). by vm_compute. Qed.

(** A title that is not a string makes every path raise. *)
Lemma title_not_str (p : profile) :
  title_is_str p = false -> p !! "title" = Some PNone.
Proof.
  unfold title_is_str. by destruct (p !! "title") as [[|s]|].
Qed.

Lemma get_fallback_message_null_title (p : profile) (d : nat) :
  p !! "title" = Some PNone ->
  get_fallback_message p d = Raise AttributeError.
Proof.
  intros Ht. unfold get_fallback_message, fallback_is_recruiter, get.
  by rewrite Ht.
Qed.

Lemma build_prompt_null_title (p : profile) :
  p !! "title" = Some PNone -> build_prompt p = Raise AttributeError.
Proof.
  intros Ht. unfold build_prompt, extract_details, get. by rewrite Ht.
Qed.

Lemma generate_message_null_title
    (key : option string) (p : profile) (d : nat) :
  p !! "title" = Some PNone ->
  result (generate_message key p d) = Raise AttributeError.
Proof.
  intros Hp. unfold generate_message. destruct (no_api_key key); simpl.
  - by rewrite (get_fallback_message_null_title p d Hp).
  - rewrite (build_prompt_null_title p Hp). simpl.
    by rewrite (get_fallback_message_null_title p d Hp).
Qed.

(** ** The message generator *)

(** C1 (fails on the code).  The claim promises a non-empty string for
    every profile, also when DEEPSEEK_API_KEY is configured.  With the key
    set to "sk-test", [generate_message] on the module's own test profile
    prints nothing and returns [None]: the [try] block builds the prompt
    and the function ends without calling a provider or returning a
    message. *)
Theorem generate_message_with_key_returns_None (draw : nat) :
  generate_message (Some "sk-test") test_profile draw = Run [] (Return PNone).
Proof. reflexivity. Qed.




(** ** Classification on the prompt-building path *)

(** The clause tells the audience: the three clauses start with different
    letters. *)
Lemma clause_of_inj (a a' : audience) (d d' : details) :
  clause_of a d = clause_of a' d' -> a = a'.
Proof.
  destruct a, a'; simpl; intros H; try reflexivity;
    apply (f_equal (fun s => String.get 0 s)) in H; discriminate H.
Qed.

Lemma extract_details_title (p : profile) (d : details) :
  extract_details p = Return d ->
  title d = PyStr.lower (PyStr.str (get p "title" (PStr "professional"))).
Proof.
  unfold extract_details.
  destruct (get p "title" (PStr "professional")); simpl; [discriminate|].
  by intros [= <-].
Qed.

(** The prompt is its head followed by the clause of the audience. *)
Lemma build_prompt_clause (p : profile) :
  title_is_str p = true ->
  exists d,
    extract_details p = Return d /\
    title d = PyStr.lower (PyStr.str (get p "title" (PStr "professional"))) /\
    build_prompt p
    = Return (prompt_head (name d) +:+ clause_of (prompt_audience p) d).
Proof.
  intros Hp. destruct (extract_details_str p Hp) as [d Hd].
  pose proof (extract_details_title p d Hd) as Ht.
  exists d. split; [exact Hd|]. split; [exact Ht|].
  unfold build_prompt, prompt_audience, prompt_is_recruiter, is_alumni.
  rewrite Hd. simpl. rewrite <- Ht. by repeat case_match.
Qed.

(** C2.  On the prompt-building path the profile is classified by the
    lower-cased title ("professional" when missing): "recruit" or "talent"
    in it selects the recruiter clause; otherwise a 'school' key selects the
    alumni clause; otherwise the generic clause is used.  The recruiter
    test comes first, so a recruiter-like title wins over a school field.
    The clause appended to the prompt determines the audience. *)
Theorem prompt_classification (p : profile) :
  title_is_str p = true ->
  exists d,
    extract_details p = Return d /\
    title d = PyStr.lower (PyStr.str (get p "title" (PStr "professional"))) /\
    build_prompt p
    = Return (prompt_head (name d) +:+ clause_of (prompt_audience p) d) /\
    (forall a, clause_of a d = clause_of (prompt_audience p) d ->
               a = prompt_audience p) /\
    (prompt_is_recruiter (title d) = true ->
     prompt_audience p = Recruiter /\
     build_prompt p = Return (prompt_head (name d) +:+ recruiter_clause d)).
Proof.
  intros Hp. destruct (build_prompt_clause p Hp) as (d & Hd & Ht & Hb).
  exists d. split; [exact Hd|]. split; [exact Ht|]. split; [exact Hb|].
  split; [intros a; apply clause_of_inj|].
  intros Hr. unfold prompt_is_recruiter in Hr.
  assert (prompt_audience p = Recruiter) as Ha.
  { unfold prompt_audience. rewrite <- Ht. by rewrite Hr. }
  split; [exact Ha|]. rewrite Hb. by rewrite Ha.
Qed.

Lemma prompt_classification_witness :
  exists d,
    extract_details recruiter_alumnus = Return d /\
    title d = "recruiter" /\
    build_prompt recruiter_alumnus
    = Return (prompt_head (name d) +:+ recruiter_clause d).
Proof.
  destruct (prompt_classification recruiter_alumnus) as (d & Hd & Ht & _ & _ & Hr).
  - reflexivity.
  - exists d. split; [exact Hd|]. split; [exact Ht|].
    apply Hr. rewrite Ht. reflexivity.
Defined.

(** ** The fallback renderer *)

(** C3.  The fallback renderer tests the title for "recruit" only.  A
    profile whose lower-cased title contains "talent" but not "recruit",
    and which has no 'school' key, is neither recruiter nor alumnus there:
    its template is drawn from the two pools together, so templates
    outside the recruiter pool are drawn too, although the prompt-building
    path calls the same title a recruiter's. *)
Theorem fallback_talent_is_generic (p : profile) (t : string) (draw : nat) :
  p !! "title" = Some (PStr t) ->
  PyStr.contains "talent" (PyStr.lower t) = true ->
  PyStr.contains "recruit" (PyStr.lower t) = false ->
  p !! "school" = None ->
  fallback_is_recruiter p = Return false /\
  is_alumni p = false /\
  fallback_audience p = Generic /\
  get_fallback_message p draw
  = (template <- random_choice (RECRUITER_FALLBACK ++ ALUMNI_FALLBACK) draw ;;
     message <- PyStr.format template (template_vars p) ;;
     Return (PStr message)) /\
  (exists template c0 out,
     (RECRUITER_FALLBACK ++ ALUMNI_FALLBACK) !! (draw `mod` 8)%nat
       = Some template /\
     get_fallback_message p draw = Return (PStr (String c0 out))) /\
  (forall template, template ∈ ALUMNI_FALLBACK ->
     (template ∉ RECRUITER_FALLBACK) /\
     exists d, choose_template false false d = Return template) /\
  prompt_is_recruiter (PyStr.lower t) = true.
Proof.
  intros Ht Htal Hrec Hsch.
  assert (title_is_str p = true) as Hp by (unfold title_is_str; by rewrite Ht).
  assert (title_text p = t) as Htt by (unfold title_text, get; by rewrite Ht).
  assert (fallback_audience p = Generic) as Ha.
  { unfold fallback_audience, has_key. rewrite Htt, Hrec, Hsch.
    rewrite bool_decide_eq_false_2; [done|]. by intros [? ?]. }
  split; [by rewrite (fallback_is_recruiter_str p Hp), Htt, Hrec|].
  split.
  { unfold is_alumni, has_key. rewrite Hsch.
    apply bool_decide_eq_false_2. by intros [? ?]. }
  split; [exact Ha|].
  split; [by rewrite (get_fallback_message_str p draw Hp), Ha|].
  split.
  { destruct (get_fallback_message_total p draw Hp)
      as (tpl & c0 & out & Hl & _ & Hg).
    rewrite Ha in Hl. exists tpl, c0, out. by split. }
  split.
  { intros tpl Hin. split.
    - intros Hr. pose proof pools_NoDup as Hnd.
      apply NoDup_app in Hnd as (_ & Hdisj & _). by apply (Hdisj tpl).
    - assert (tpl ∈ RECRUITER_FALLBACK ++ ALUMNI_FALLBACK) as Hu
          by (apply elem_of_app; auto).
      apply list_elem_of_lookup in Hu as [i Hi].
      exists i. unfold choose_template. by apply random_choice_small. }
  unfold prompt_is_recruiter. rewrite Htal. apply orb_true_r.
Qed.

Lemma fallback_talent_is_generic_witness :
  fallback_is_recruiter talent_partner = Return false /\
  fallback_audience talent_partner = Generic /\
  prompt_is_recruiter (PyStr.lower "Talent Partner") = true.
Proof.
  destruct (fallback_talent_is_generic talent_partner "Talent Partner" 4)
    as (H1 & _ & H3 & _ & _ & _ & H7); try reflexivity.
  split; [exact H1|]. split; [exact H3|exact H7].
Defined.

Lemma get_fallback_message_render (p : profile) (d : nat) :
  title_is_str p = true ->
  get_fallback_message p d
  = (template <- random_choice (pool_of (fallback_audience p)) d ;;
     render p template).
Proof. apply get_fallback_message_str. Qed.

(** C4.  The recruiter pool and the alumni pool hold four templates each
    and the two together eight different ones.  The fallback renderer
    draws from the recruiter pool for a recruiter, from the alumni pool for
    an alumnus and from both pools together otherwise: the message is the
    rendering of the template at the drawn position of that pool; over one
    period of draws every template of the pool is used exactly once, so a
    uniform draw makes them equally likely; and every template of the pool,
    hence for a generic profile every template of either pool, is reached
    by some draw. *)
Theorem fallback_choice_uniform (p : profile) (draw : nat) :
  title_is_str p = true ->
  let pool := pool_of (fallback_audience p) in
  (length RECRUITER_FALLBACK = 4 /\ length ALUMNI_FALLBACK = 4 /\
   length (RECRUITER_FALLBACK ++ ALUMNI_FALLBACK) = 8 /\
   NoDup (RECRUITER_FALLBACK ++ ALUMNI_FALLBACK))%nat /\
  (fallback_is_recruiter p
   = Return (bool_decide (fallback_audience p = Recruiter)) /\
   (fallback_audience p = Alumni -> is_alumni p = true) /\
   (fallback_audience p = Generic -> is_alumni p = false)) /\
  (exists template c0 out,
     pool !! (draw `mod` length pool)%nat = Some template /\
     render p template = Return (PStr (String c0 out)) /\
     get_fallback_message p draw = Return (PStr (String c0 out))) /\
  map (get_fallback_message p) (seq 0 (length pool)) = map (render p) pool /\
  (forall template, template ∈ pool ->
     exists d, (d < length pool)%nat /\
               get_fallback_message p d = render p template).
Proof.
  intros Hp pool. split; [|split; [|split; [|split]]].
  - repeat split; try reflexivity. apply pools_NoDup.
  - rewrite (fallback_is_recruiter_str p Hp).
    unfold fallback_audience, is_alumni.
    destruct (PyStr.contains _ _); [by repeat split|].
    destruct (has_key p "school"); by repeat split.
  - destruct (get_fallback_message_total p draw Hp)
      as (t & c0 & out & Hl & Hf & Hg).
    exists t, c0, out. split; [exact Hl|]. split; [|exact Hg].
    unfold render. by rewrite Hf.
  - rewrite (map_ext _ _ (fun d => get_fallback_message_render p d Hp)).
    change (fun d => template <- random_choice pool d ;; render p template)
      with (fun d => (fun o => bind o (render p)) (random_choice pool d)).
    rewrite <- (map_map (random_choice pool) (fun o => bind o (render p))).
    rewrite random_choice_period. by rewrite map_map.
  - intros t Ht. apply list_elem_of_lookup in Ht as [i Hi].
    exists i. split; [by eapply lookup_lt_Some|].
    rewrite (get_fallback_message_render p i Hp). fold pool.
    by rewrite (random_choice_small _ _ _ Hi).
Qed.

Lemma fallback_choice_uniform_witness :
  map (get_fallback_message engineer) (seq 0 8)
  = map (render engineer) (RECRUITER_FALLBACK ++ ALUMNI_FALLBACK).
Proof.
  destruct (fallback_choice_uniform engineer 0) as (_ & _ & _ & H & _).
  - reflexivity.
  - exact H.
Defined.





(** ** Defaults on the prompt-building path *)




(** ** The web handlers *)

Section AppProperties.

Local Open Scope Qc_scope.

Variable clock : nat -> Qc.
Variable MAX_REQUESTS_PER_HOUR : Z.

Lemma check_rate_limit_eq (st : state) :
  check_rate_limit clock MAX_REQUESTS_PER_HOUR st
  = (bool_decide
       (MAX_REQUESTS_PER_HOUR
        <= Z.of_nat (length (recent (clock (ticks st)) (request_timestamps st))))%Z,
     State (profiles_data st) (connection_history st)
           (recent (clock (ticks st)) (request_timestamps st))
           (S (ticks st))).
Proof. reflexivity. Qed.


Lemma elem_of_recent (now ts : Qc) (l : list Qc) :
  ts ∈ recent now l <-> now - hour < ts /\ ts ∈ l.
Proof. unfold recent. apply list_elem_of_filter. Qed.


(** ** Bulk ingestion *)

Lemma store_profiles_lookup (profiles : list jobject)
    (store : gmap jval jobject) (url : jval) :
  foldl store_profile store profiles !! url
  = match last (submitted_under url profiles) with
    | Some profile => Some profile
    | None => store !! url
    end.
Proof.
  induction profiles as [|profile profiles IH] using rev_ind; [done|].
  rewrite foldl_app. simpl. unfold submitted_under in *.
  rewrite filter_app, last_app.
  unfold store_profile at 1.
  destruct (profile !! "profileUrl") as [u|] eqn:Hu.
  - destruct (decide (u = url)) as [->|Hneq].
    + rewrite lookup_insert_eq.
      by rewrite (filter_singleton_True _ _ []).
    + rewrite lookup_insert_ne by done.
      rewrite filter_singleton_False by congruence. done.
  - rewrite filter_singleton_False by congruence. done.
Qed.

Lemma store_profiles_filter (profiles : list jobject)
    (store : gmap jval jobject) :
  foldl store_profile store profiles
  = foldl store_profile store
      (filter (fun profile => is_Some (profile !! "profileUrl")) profiles).
Proof.
  revert store.
  induction profiles as [|profile profiles IH]; intros store; [done|].
  rewrite filter_cons. cbn [foldl].
  destruct (decide (is_Some (profile !! "profileUrl"))) as [Hs|Hn].
  - cbn [foldl]. apply IH.
  - rewrite <- IH. f_equal. unfold store_profile.
    destruct (profile !! "profileUrl"); [|done]. by destruct Hn.
Qed.

(** C9.  [collect_profiles] rejects a body that is not JSON or carries no
    profiles and leaves the state alone.  Otherwise, under every URL the
    store then holds the last submitted profile carrying that URL, or what
    it held before when none was submitted; profiles without a 'profileUrl'
    key leave no trace; the message counts all submitted profiles and
    'profiles_count' is the size of the whole store. *)
Theorem collect_profiles_store
    (req : request (option (list jobject))) (st : state) :
  let resp := fst (collect_profiles req st) in
  let st' := snd (collect_profiles req st) in
  match is_json req, json req with
  | false, _ =>
      resp = Response 400 [("error", RStr "Request must be JSON")] /\ st' = st
  | true, None =>
      resp = Response 400 [("error", RStr "No profiles provided")] /\ st' = st
  | true, Some profiles =>
      (forall url,
         profiles_data st' !! url
         = match last (submitted_under url profiles) with
           | Some profile => Some profile
           | None => profiles_data st !! url
           end) /\
      profiles_data st'
      = foldl store_profile (profiles_data st)
          (filter (fun profile => is_Some (profile !! "profileUrl")) profiles) /\
      resp = Response 200
               [("success", RBool true);
                ("profiles_count",
                 RInt (Z.of_nat (size (profiles_data st'))));
                ("message",
                 RStr ("Stored " +:+ pretty (length profiles) +:+ " profiles"))] /\
      connection_history st' = connection_history st /\
      request_timestamps st' = request_timestamps st
  end.
Proof.
  intros resp st'. subst resp st'. unfold collect_profiles.
  destruct (is_json req); simpl; [|by split; [|destruct st]].
  destruct (json req) as [profiles|]; simpl; [|done].
  split; [intros url; apply store_profiles_lookup|].
  split; [apply store_profiles_filter|done].
Qed.

(** ** The sliding window of the rate limiter *)

Lemma monotone_le (n m : nat) :
  monotone clock -> (n <= m)%nat -> clock n <= clock m.
Proof.
  intros Hmono Hle. induction Hle as [|m Hle IH]; [apply Qcle_refl|].
  eapply Qcle_trans; [exact IH|apply Hmono].
Qed.

Lemma timestamps_read_initial : timestamps_read clock initial.
Proof. intros ts Hts. by apply elem_of_nil in Hts. Qed.

(** What [record_connection] does to the timestamps and to the clock. *)
Lemma record_connection_timestamps (req : request jobject) (st : state) :
  let st' := snd (record_connection clock MAX_REQUESTS_PER_HOUR req st) in
  let counted := recent (clock (ticks st)) (request_timestamps st) in
  (request_timestamps st' = request_timestamps st /\ ticks st' = ticks st) \/
  (request_timestamps st' = counted /\ ticks st' = S (ticks st)) \/
  (request_timestamps st' = counted ++ [clock (S (ticks st))] /\
   (S (S (ticks st)) <= ticks st')%nat).
Proof.
  unfold record_connection.
  destruct (negb (is_json req)); [by left|].
  destruct (_ || _); [by left|].
  rewrite check_rate_limit_eq.
  destruct (bool_decide _); [right; left; done|].
  right; right. destruct (json req !! "profileUrl"); simpl; [|split; [done|lia]].
  case_bool_decide; simpl; (split; [done|lia]).
Qed.

Lemma serve_timestamps_read (c : call) (st : state) :
  timestamps_read clock st ->
  timestamps_read clock (snd (serve clock MAX_REQUESTS_PER_HOUR c st)).
Proof.
  intros Hst. destruct c as [|req|req]; simpl.
  - intros ts Hts. destruct (Hst ts Hts) as (n & Hn & ->).
    exists n. simpl. split; [lia|done].
  - unfold collect_profiles.
    destruct (negb (is_json req)); [done|]. by destruct (json req).
  - pose proof (record_connection_timestamps req st) as Hrc. simpl in Hrc.
    intros ts Hts.
    destruct Hrc as [[Ht Hk]|[[Ht Hk]|[Ht Hk]]]; rewrite Ht in Hts.
    + rewrite Hk. by apply Hst.
    + apply elem_of_recent in Hts as [_ Hts].
      destruct (Hst ts Hts) as (n & Hn & ->). exists n. split; [lia|done].
    + apply elem_of_app in Hts as [Hts|Hts].
      * apply elem_of_recent in Hts as [_ Hts].
        destruct (Hst ts Hts) as (n & Hn & ->). exists n. split; [lia|done].
      * apply list_elem_of_singleton in Hts as ->.
        exists (S (ticks st)). split; [lia|done].
Qed.

Lemma run_calls_timestamps_read (cs : list call) :
  timestamps_read clock (run_calls clock MAX_REQUESTS_PER_HOUR cs initial).
Proof.
  unfold run_calls.
  induction cs as [|c cs IH] using rev_ind; [apply timestamps_read_initial|].
  rewrite foldl_app. simpl. by apply serve_timestamps_read.
Qed.

(** C10 (fails on the code).  A connection is recorded while the clock
    reads 10000; the clock is then set back and reads 7000 at the next
    check.  [check_rate_limit] keeps the timestamp 10000, which is later
    than the time of the check and so does not lie in the hour before
    it. *)
Lemma check_rate_limit_keeps_later_timestamp :
  set_back_clock (ticks recorded_before_set_back) = Qc_of_Z 7000 /\
  request_timestamps
    (snd (check_rate_limit set_back_clock 2 recorded_before_set_back))
  = [Qc_of_Z 10000] /\
  ~ (Qc_of_Z 10000 <= set_back_clock (ticks recorded_before_set_back)).
Proof. by vm_compute. Qed.

(** C10 (amended).  After any call of [check_rate_limit], in any state,
    every timestamp left in [request_timestamps] is later than one hour
    before the time of the check; the timestamps left are exactly the
    stored ones that are, and it is their number that is compared with
    the cap.  When the clock never runs backwards and the state is the one
    reached by serving requests from the start, every timestamp left is
    also not later than the time of the check, so that it lies in the hour
    that ends there. *)
Theorem check_rate_limit_window (st : state) :
  let now := clock (ticks st) in
  let limited := fst (check_rate_limit clock MAX_REQUESTS_PER_HOUR st) in
  let st' := snd (check_rate_limit clock MAX_REQUESTS_PER_HOUR st) in
  (forall ts, ts ∈ request_timestamps st' -> now - hour < ts) /\
  (forall ts, ts ∈ request_timestamps st' <->
              ts ∈ request_timestamps st /\ now - hour < ts) /\
  limited
  = bool_decide (MAX_REQUESTS_PER_HOUR
                 <= Z.of_nat (length (request_timestamps st')))%Z /\
  (monotone clock ->
   forall cs, st = run_calls clock MAX_REQUESTS_PER_HOUR cs initial ->
   forall ts, ts ∈ request_timestamps st' -> now - hour < ts /\ ts <= now).
Proof.
  intros now limited st'. subst limited st'.
  rewrite check_rate_limit_eq. simpl. fold now.
  split; [|split; [|split; [done|]]].
  - intros ts Hts. by apply elem_of_recent in Hts as [Hlo _].
  - intros ts. rewrite elem_of_recent. tauto.
  - intros Hmono cs Hcs ts Hts. apply elem_of_recent in Hts as [Hlo Hts].
    split; [exact Hlo|].
    rewrite Hcs in Hts.
    destruct (run_calls_timestamps_read cs ts Hts) as (n & Hn & ->).
    apply monotone_le; [done|]. subst now. rewrite Hcs. lia.
Qed.

(** In any state at all, what [check_rate_limit] leaves is later than one
    hour before the reading it took. *)
Lemma check_rate_limit_lower (st : state) (ts : Qc) :
  ts ∈ request_timestamps (snd (check_rate_limit clock MAX_REQUESTS_PER_HOUR st)) ->
  clock (ticks st) - hour < ts.
Proof.
  rewrite check_rate_limit_eq. simpl. intros Hts.
  by apply elem_of_recent in Hts as [Hlo _].
Qed.

End AppProperties.

(** ** Concrete runs *)

Local Open Scope Qc_scope.

Lemma minute_clock_monotone : monotone minute_clock.
Proof.
  intros n. unfold minute_clock. apply (proj1 (Z2Qc_inj_le _ _)). lia.
Qed.


Lemma check_rate_limit_window_witness :
  minute_clock 4
    ∈ request_timestamps (snd (check_rate_limit minute_clock 2 two_recorded)) /\
  minute_clock (ticks two_recorded) - hour < minute_clock 4 /\
  minute_clock 4 <= minute_clock (ticks two_recorded).
Proof.
  assert (minute_clock 4
            ∈ request_timestamps
                (snd (check_rate_limit minute_clock 2 two_recorded))) as Hin.
  { apply (bool_decide_unpack _). by vm_compute. }
  split; [exact Hin|].
  destruct (check_rate_limit_window minute_clock 2 two_recorded)
    as (_ & _ & _ & Hpast).
  exact (Hpast minute_clock_monotone
           [CallRecordConnection connect_alice;
            CallRecordConnection connect_alice]
           eq_refl (minute_clock 4) Hin).
Defined.

(** Three profiles are submitted, one of them without a URL and two under
    the same URL: the message counts three, the store holds one, the later
    of the two. *)
Example collect_profiles_counts :
  let alice1 : jobject := <["profileUrl" := JStr "u"]> ∅ in
  let nobody : jobject := <["name" := JStr "Nobody"]> ∅ in
  let alice2 : jobject :=
    <["profileUrl" := JStr "u"]> (<["name" := JStr "Alice"]> ∅) in
  let out :=
    collect_profiles (Request true (Some [alice1; nobody; alice2])) initial in
  fst out
  = Response 200 [("success", RBool true); ("profiles_count", RInt 1);
                  ("message", RStr "Stored 3 profiles")] /\
  profiles_data (snd out) = {[ JStr "u" := alice2 ]}.
Proof. by vm_compute. Qed.

(** * Further properties *)

(** ** The generator on ill-typed and on irrelevant fields *)

(** X1.  [generate_message] raises exactly when the profile holds a title
    that is not a string, and what it raises then is the [AttributeError]
    of [.lower()]: with a key the [except] clause catches the error of the
    [try] block, calls the fallback, and the fallback raises it again. *)
Theorem generate_message_raises_iff
    (key : option string) (p : profile) (draw : nat) :
  match result (generate_message key p draw) with
  | Raise e => e = AttributeError /\ p !! "title" = Some PNone
  | Return _ => p !! "title" <> Some PNone
  end.
Proof.
  destruct (title_is_str p) eqn:Hp.
  - destruct (generate_message_never_raises key p draw Hp) as [v ->].
    intros Ht. unfold title_is_str in Hp. by rewrite Ht in Hp.
  - apply title_not_str in Hp.
    by rewrite (generate_message_null_title key p draw Hp).
Qed.

(** X2.  The two recruiter tests differ by "talent" alone, also when the
    title is missing and the two paths fall back on different defaults:
    the flag of the prompt-building path is the flag of the fallback
    renderer or "talent" in the lower-cased title. *)
Theorem recruiter_tests_compared (p : profile) :
  title_is_str p = true ->
  exists d b,
    extract_details p = Return d /\
    fallback_is_recruiter p = Return b /\
    prompt_is_recruiter (title d)
    = b || PyStr.contains "talent" (PyStr.lower (title_text p)).
Proof.
  intros Hp. destruct (extract_details_str p Hp) as [d Hd].
  exists d, (PyStr.contains "recruit" (PyStr.lower (title_text p))).
  split; [exact Hd|]. split; [by apply fallback_is_recruiter_str|].
  rewrite (extract_details_title p d Hd).
  unfold prompt_is_recruiter, title_text, get, title_is_str in *.
  destruct (p !! "title") as [[|s]|]; [discriminate|done|done].
Qed.

Lemma recruiter_tests_compared_witness :
  exists d b,
    extract_details talent_partner = Return d /\
    fallback_is_recruiter talent_partner = Return b /\
    prompt_is_recruiter (title d)
    = b || PyStr.contains "talent" (PyStr.lower (title_text talent_partner)).
Proof. apply (recruiter_tests_compared talent_partner). reflexivity. Defined.

(** ** The fallback messages written out *)

Lemma render_pool_written_out (a : audience) (p : profile) :
  map (render p) (pool_of a)
  = map (fun message => Return (PStr message)) (messages_of a p).
Proof.
  unfold render, messages_of, company_text, school_text, industry_text,
    your_role_text, current_role_text.
  rewrite (template_vars_eq p).
  generalize (get p "name" (PStr "there")) as n.
  generalize (get p "title" (PStr "professional")) as t.
  generalize (get p "company" (PStr "your company")) as c.
  generalize (get p "school" (PStr "our shared alma mater")) as s.
  generalize (get p "industry" (PStr "this field")) as i.
  generalize (get p "your_role" (PStr "aspiring professional")) as y.
  generalize (get p "title" (PStr "current position")) as cr.
  intros. destruct a; vm_compute; reflexivity.
Qed.

Lemma messages_of_length (a : audience) (p : profile) :
  length (messages_of a p) = length (pool_of a).
Proof. by destruct a. Qed.

(** X3.  A fallback message is its template with every field replaced by
    the text of its variable and nothing else changed: the message drawn
    is the one at the drawn position among the messages written out.  The
    values go in as they are; braces in a value are not read as fields. *)
Theorem fallback_message_written_out (p : profile) (draw : nat) :
  title_is_str p = true ->
  exists message,
    messages_of (fallback_audience p) p
      !! (draw `mod` length (pool_of (fallback_audience p)))%nat
    = Some message /\
    get_fallback_message p draw = Return (PStr message).
Proof.
  intros Hp.
  destruct (get_fallback_message_total p draw Hp)
    as (t & c0 & out & Hl & Hf & Hg).
  pose proof (render_pool_written_out (fallback_audience p) p) as Hr.
  apply (f_equal (fun l => l !! (draw `mod` length (pool_of (fallback_audience p)))%nat))
    in Hr.
  rewrite !list_lookup_fmap, Hl in Hr. simpl in Hr.
  destruct (messages_of _ _ !! _) as [message|] eqn:Hm; [|discriminate].
  exists message. split; [done|].
  simpl in Hr. injection Hr as Hr. unfold render in Hr. rewrite Hf in Hr.
  simpl in Hr. rewrite Hg. by rewrite Hr.
Qed.

Lemma fallback_message_written_out_witness :
  exists message,
    messages_of (fallback_audience recruiter_alumnus) recruiter_alumnus
      !! (6 `mod` 4)%nat = Some message /\
    get_fallback_message recruiter_alumnus 6 = Return (PStr message).
Proof. apply (fallback_message_written_out recruiter_alumnus 6). reflexivity. Defined.

Lemma bind_random_choice {A B} (f : A -> outcome B) (l : list A) (d : nat) :
  (x <- random_choice l d ;; f x) = (y <- random_choice (map f l) d ;; y).
Proof.
  unfold random_choice. rewrite length_map, list_lookup_fmap.
  by destruct (l !! _).
Qed.

(** The fallback renderer as a draw among the messages written out. *)
Lemma get_fallback_message_messages (p : profile) (d : nat) :
  title_is_str p = true ->
  get_fallback_message p d
  = (message <- random_choice (messages_of (fallback_audience p) p) d ;;
     Return (PStr message)).
Proof.
  intros Hp. rewrite (get_fallback_message_render p d Hp).
  rewrite bind_random_choice, render_pool_written_out.
  by rewrite <- bind_random_choice.
Qed.

Lemma get_insert_ne (p : profile) (k k' : string) (v dflt : pyval) :
  k <> k' -> get (<[k := v]> p) k' dflt = get p k' dflt.
Proof. intros Hne. unfold get. by rewrite lookup_insert_ne. Qed.

(** X4.  The fallback message depends on the profile through the fields
    title, company, school, industry and your_role only.  Any other field,
    the name among them, can be set to anything without changing what is
    returned or raised: no template mentions the name. *)
Theorem fallback_ignores_other_fields
    (p : profile) (k : string) (v : pyval) (draw : nat) :
  k <> "title" -> k <> "company" -> k <> "school" -> k <> "industry" ->
  k <> "your_role" ->
  get_fallback_message (<[k := v]> p) draw = get_fallback_message p draw.
Proof.
  intros Ht Hc Hs Hi Hy.
  assert (title_is_str (<[k := v]> p) = title_is_str p) as Htitle.
  { unfold title_is_str. by rewrite lookup_insert_ne. }
  destruct (title_is_str p) eqn:Hp.
  - rewrite (get_fallback_message_messages _ draw Htitle).
    rewrite (get_fallback_message_messages p draw Hp).
    assert (fallback_audience (<[k := v]> p) = fallback_audience p) as ->.
    { unfold fallback_audience, title_text, has_key.
      rewrite get_insert_ne by done. by rewrite lookup_insert_ne. }
    unfold messages_of, company_text, school_text, industry_text,
      your_role_text, current_role_text.
    by rewrite !get_insert_ne.
  - apply title_not_str in Hp. apply title_not_str in Htitle.
    by rewrite !get_fallback_message_null_title.
Qed.

Lemma fallback_ignores_other_fields_witness :
  get_fallback_message (<["name" := PStr "Jane"]> recruiter_alumnus) 2
  = get_fallback_message recruiter_alumnus 2.
Proof.
  apply (fallback_ignores_other_fields recruiter_alumnus "name" (PStr "Jane") 2);
    discriminate.
Defined.

(** ** What a fallback message mentions *)

Lemma prefix_app (n post : string) : String.prefix n (n +:+ post) = true.
Proof.
  induction n as [|c n IH]; [by destruct post|]. simpl.
  by destruct (ascii_dec c c).
Qed.

Lemma contains_here (n post : string) : PyStr.contains n (n +:+ post) = true.
Proof.
  assert (forall s, String.prefix n s = true -> PyStr.contains n s = true)
    as Hpre by (by intros [|c s] Hs; cbn [PyStr.contains]; rewrite Hs).
  apply Hpre, prefix_app.
Qed.

Lemma contains_skip (n pre s : string) :
  PyStr.contains n s = true -> PyStr.contains n (pre +:+ s) = true.
Proof.
  intros Hs. induction pre as [|c pre IH]; [done|].
  simpl. rewrite IH. apply orb_true_r.
Qed.

Ltac find_text :=
  repeat first [apply contains_here | apply contains_skip].

Lemma recruiter_messages_mention (c i y m : string) :
  m ∈ recruiter_messages c i y ->
  PyStr.contains c m = true /\ PyStr.contains i m = true.
Proof.
  unfold recruiter_messages. intros Hm.
  repeat (apply elem_of_cons in Hm as [-> | Hm]);
    [split; find_text .. | by apply elem_of_nil in Hm].
Qed.

Lemma alumni_messages_mention (c s i cr m : string) :
  m ∈ alumni_messages c s i cr -> PyStr.contains s m = true.
Proof.
  unfold alumni_messages. intros Hm.
  repeat (apply elem_of_cons in Hm as [-> | Hm]);
    [find_text .. | by apply elem_of_nil in Hm].
Qed.

(** X5.  A fallback message for a recruiter mentions the company and the
    industry, one for an alumnus mentions the school, each by the value of
    the profile or else its default; a message for a generic profile does
    one or the other. *)
Theorem fallback_message_mentions (p : profile) (draw : nat) (message : string) :
  title_is_str p = true ->
  get_fallback_message p draw = Return (PStr message) ->
  match fallback_audience p with
  | Recruiter =>
      PyStr.contains (company_text p) message = true /\
      PyStr.contains (industry_text p) message = true
  | Alumni => PyStr.contains (school_text p) message = true
  | Generic =>
      (PyStr.contains (company_text p) message = true /\
       PyStr.contains (industry_text p) message = true) \/
      PyStr.contains (school_text p) message = true
  end.
Proof.
  intros Hp Hg. rewrite (get_fallback_message_messages p draw Hp) in Hg.
  assert (message ∈ messages_of (fallback_audience p) p) as Hin.
  { destruct (random_choice _ draw) as [m|e] eqn:Hc; [|discriminate].
    simpl in Hg. injection Hg as ->.
    apply random_choice_lookup in Hc. by eapply list_elem_of_lookup_2. }
  destruct (fallback_audience p); cbn [messages_of] in Hin.
  - by eapply recruiter_messages_mention.
  - by eapply alumni_messages_mention.
  - apply elem_of_app in Hin as [Hin|Hin].
    + left. by eapply recruiter_messages_mention.
    + right. by eapply alumni_messages_mention.
Qed.

Lemma fallback_message_mentions_witness :
  PyStr.contains "Tech U"
    "As a current Tech U student interested in this field, I'd appreciate connecting with alumni like yourself to learn about your career journey."
  = true.
Proof.
  apply (fallback_message_mentions data_scientist 2); reflexivity.
Defined.

(** ** Connection requests, case by case *)

Section MoreAppProperties.

Local Open Scope Qc_scope.

Variable clock : nat -> Qc.
Variable MAX_REQUESTS_PER_HOUR : Z.

(** The three ways a connection request ends: refused as malformed, with
    the state untouched; refused by the limiter, with the old timestamps
    dropped; or accepted. *)
Lemma record_connection_cases (req : request jobject) (st : state) :
  let resp := fst (record_connection clock MAX_REQUESTS_PER_HOUR req st) in
  let st' := snd (record_connection clock MAX_REQUESTS_PER_HOUR req st) in
  let counted := recent (clock (ticks st)) (request_timestamps st) in
  (status_code resp = 400%nat /\ st' = st /\
   (is_json req = false \/ json req !! "profileUrl" = None)) \/
  (status_code resp = 429%nat /\
   st' = State (profiles_data st) (connection_history st) counted
               (S (ticks st)) /\
   (MAX_REQUESTS_PER_HOUR <= Z.of_nat (length counted))%Z) \/
  (exists url,
     json req !! "profileUrl" = Some url /\ is_json req = true /\
     status_code resp = 200%nat /\
     (Z.of_nat (length counted) < MAX_REQUESTS_PER_HOUR)%Z /\
     st' = State
             (if bool_decide (is_Some (profiles_data st !! url))
              then alter (mark_connected (timestamp (record_of clock req st url)))
                         url (profiles_data st)
              else profiles_data st)
             (connection_history st ++ [record_of clock req st url])
             (counted ++ [clock (S (ticks st))])
             (S (S (S (ticks st))))).
Proof.
  unfold record_connection.
  destruct (is_json req) eqn:Hj; [|simpl; left; by auto].
  simpl negb. cbv iota.
  destruct (json req !! "profileUrl") as [url|] eqn:Hurl.
  - assert (json req <> ∅) as Hne.
    { intros Heq. rewrite Heq in Hurl. by rewrite lookup_empty in Hurl. }
    rewrite (bool_decide_eq_false_2 _ Hne).
    rewrite (bool_decide_eq_true_2 (is_Some (Some url))) by eauto.
    simpl orb. simpl negb. cbv iota. rewrite check_rate_limit_eq.
    case_bool_decide as Hcap; simpl.
    + right; left. by auto.
    + right; right. exists url. unfold record_of.
      split; [done|]. split; [done|].
      case_bool_decide; simpl; (split; [done|]); (split; [lia|done]).
  - rewrite (bool_decide_eq_false_2 (is_Some None)) by (by intros [? ?]).
    rewrite orb_true_r. left. by auto.
Qed.

(** X6.  A connection request that is not JSON, or whose body has no
    'profileUrl', is answered with 400 and its own error text, and leaves
    everything as it was: the limiter is not consulted, no timestamp is
    dropped and the clock is not read. *)
Theorem record_connection_malformed (req : request jobject) (st : state) :
  is_json req = false \/ json req !! "profileUrl" = None ->
  record_connection clock MAX_REQUESTS_PER_HOUR req st
  = (Response 400
       [("error",
         RStr (if is_json req then "No profile URL provided"
               else "Request must be JSON"))],
     st).
Proof.
  unfold record_connection.
  destruct (is_json req); simpl; [|done].
  intros [?|Hurl]; [done|]. rewrite Hurl.
  rewrite (bool_decide_eq_false_2 (is_Some None)) by (by intros [? ?]).
  by rewrite orb_true_r.
Qed.

(** X7.  Recording a connection never adds or removes a profile.  An
    accepted request for a stored URL marks that profile connected, with
    the timestamp of the record, and leaves its other fields alone; every
    other profile, and the whole store when the request is refused, stays
    as it was. *)
Theorem record_connection_store (req : request jobject) (st : state) :
  let resp := fst (record_connection clock MAX_REQUESTS_PER_HOUR req st) in
  let st' := snd (record_connection clock MAX_REQUESTS_PER_HOUR req st) in
  dom (profiles_data st') = dom (profiles_data st) /\
  (status_code resp <> 200%nat -> profiles_data st' = profiles_data st) /\
  (forall url,
     json req !! "profileUrl" = Some url ->
     status_code resp = 200%nat ->
     (forall k, k <> url -> profiles_data st' !! k = profiles_data st !! k) /\
     forall profile,
       profiles_data st !! url = Some profile ->
       exists profile',
         profiles_data st' !! url = Some profile' /\
         profile' !! "status" = Some (JStr "connected") /\
         profile' !! "connectionTimestamp"
         = Some (default (JNum (clock (S (S (ticks st)))))
                         (json req !! "timestamp")) /\
         forall f, f <> "status" -> f <> "connectionTimestamp" ->
                   profile' !! f = profile !! f).
Proof.
  intros resp st'. subst resp st'.
  destruct (record_connection_cases req st)
    as [(Hc & -> & _)|[(Hc & -> & _)|(url & Hurl & _ & Hc & _ & ->)]];
    rewrite Hc; simpl.
  - split; [done|]. split; [done|]. by intros.
  - split; [done|]. split; [done|]. by intros.
  - split; [by case_bool_decide; [apply dom_alter_L|]|].
    split; [done|].
    intros url' Hurl' _. rewrite Hurl in Hurl'. injection Hurl' as <-.
    split.
    + intros k Hk. case_bool_decide; [|done]. by rewrite lookup_alter_ne.
    + intros profile Hp.
      rewrite bool_decide_eq_true_2 by (by rewrite Hp).
      exists (mark_connected (timestamp (record_of clock req st url)) profile).
      rewrite lookup_alter_eq, Hp. split; [done|].
      unfold mark_connected. split; [by rewrite lookup_insert_ne, lookup_insert_eq|].
      split; [by rewrite lookup_insert_eq|].
      intros f Hf1 Hf2. by rewrite !lookup_insert_ne.
Qed.

(** ** What ingestion and runs keep *)

Lemma store_profile_dom (store : gmap jval jobject) (profile : jobject) :
  dom (store_profile store profile)
  = dom store ∪ list_to_set (omap url_of [profile]).
Proof.
  unfold store_profile, url_of. simpl.
  destruct (profile !! "profileUrl") as [url|]; simpl.
  - rewrite dom_insert_L. set_solver.
  - set_solver.
Qed.

Lemma store_profiles_dom (profiles : list jobject)
    (store : gmap jval jobject) :
  dom (foldl store_profile store profiles)
  = dom store ∪ list_to_set (omap url_of profiles).
Proof.
  induction profiles as [|profile profiles IH] using rev_ind.
  - simpl. set_solver.
  - rewrite foldl_app. simpl. rewrite store_profile_dom, IH.
    rewrite omap_app, list_to_set_app_L. set_solver.
Qed.

Lemma store_profiles_size (profiles : list jobject)
    (store : gmap jval jobject) :
  (size store <= size (foldl store_profile store profiles)
   <= size store + length profiles)%nat.
Proof.
  induction profiles as [|profile profiles IH] using rev_ind; [simpl; lia|].
  rewrite foldl_app, length_app. simpl.
  unfold store_profile at 1 3.
  destruct (profile !! "profileUrl") as [url|]; [|lia].
  destruct (foldl store_profile store profiles !! url) eqn:Hl.
  - rewrite map_size_insert_Some by eauto. lia.
  - rewrite map_size_insert_None by done. lia.
Qed.

(** X8.  Bulk ingestion never removes a profile: afterwards the stored
    URLs are the ones stored before together with the URLs submitted, so
    the store does not shrink and grows by at most the number of profiles
    submitted. *)
Theorem collect_profiles_grows (profiles : list jobject) (st : state) :
  let st' := snd (collect_profiles (Request true (Some profiles)) st) in
  dom (profiles_data st')
  = dom (profiles_data st) ∪ list_to_set (omap url_of profiles) /\
  (size (profiles_data st) <= size (profiles_data st')
   <= size (profiles_data st) + length profiles)%nat.
Proof.
  simpl. split; [apply store_profiles_dom|apply store_profiles_size].
Qed.

Lemma serve_keeps (c : call) (st : state) :
  let st' := snd (serve clock MAX_REQUESTS_PER_HOUR c st) in
  connection_history st `prefix_of` connection_history st' /\
  dom (profiles_data st) ⊆ dom (profiles_data st') /\
  (ticks st <= ticks st')%nat.
Proof.
  assert (forall s : state,
            connection_history s `prefix_of` connection_history s /\
            dom (profiles_data s) ⊆ dom (profiles_data s) /\
            (ticks s <= ticks s)%nat) as Hsame by (by intros s).
  destruct c as [|req|req]; simpl.
  - split; [done|]. split; [done|lia].
  - unfold collect_profiles.
    destruct (negb (is_json req)); [apply Hsame|].
    destruct (json req) as [profiles|]; simpl; [|apply Hsame].
    split; [done|]. split; [|done].
    rewrite store_profiles_dom. apply union_subseteq_l.
  - destruct (record_connection_cases req st)
      as [(_ & -> & _)|[(_ & -> & _)|(url & _ & _ & _ & _ & ->)]]; simpl.
    + apply Hsame.
    + split; [done|]. split; [done|lia].
    + split; [by apply prefix_app_r|]. split; [|lia].
      case_bool_decide; [by rewrite dom_alter_L|done].
Qed.

(** X9.  Whatever requests are served, in whatever state, the connection
    history only grows at its end and no stored URL is lost: the history
    before is a prefix of the history after, and the URLs stored before
    are still stored. *)
Theorem run_calls_keeps (cs : list call) (st : state) :
  connection_history st
    `prefix_of` connection_history (run_calls clock MAX_REQUESTS_PER_HOUR cs st) /\
  dom (profiles_data st)
    ⊆ dom (profiles_data (run_calls clock MAX_REQUESTS_PER_HOUR cs st)).
Proof.
  unfold run_calls.
  induction cs as [|c cs IH] using rev_ind; [done|].
  rewrite foldl_app. simpl. destruct IH as [IH1 IH2].
  destruct (serve_keeps c (foldl (fun st c => snd (serve clock MAX_REQUESTS_PER_HOUR c st)) st cs))
    as (H1 & H2 & _).
  split; [by etrans|by etrans].
Qed.

(** ** The limiter over a whole run *)

Lemma run_log_snoc (cs : list call) (c : call) :
  run_log clock MAX_REQUESTS_PER_HOUR (cs ++ [c])
  = (snd (serve clock MAX_REQUESTS_PER_HOUR c
            (run_log clock MAX_REQUESTS_PER_HOUR cs).1),
     (run_log clock MAX_REQUESTS_PER_HOUR cs).2
     ++ accepted_at clock MAX_REQUESTS_PER_HOUR c
          (run_log clock MAX_REQUESTS_PER_HOUR cs).1).
Proof. unfold run_log. by rewrite foldl_app. Qed.

Lemma run_log_state (cs : list call) :
  (run_log clock MAX_REQUESTS_PER_HOUR cs).1
  = run_calls clock MAX_REQUESTS_PER_HOUR cs initial.
Proof.
  induction cs as [|c cs IH] using rev_ind; [done|].
  rewrite run_log_snoc. simpl. rewrite IH.
  unfold run_calls. by rewrite foldl_app.
Qed.

(** What one request does to the history, the timestamps and the log of
    accepted readings. *)
Lemma serve_accepted (c : call) (st : state) :
  let st' := snd (serve clock MAX_REQUESTS_PER_HOUR c st) in
  let new := accepted_at clock MAX_REQUESTS_PER_HOUR c st in
  let counted := recent (clock (ticks st)) (request_timestamps st) in
  (new = [] /\ connection_history st' = connection_history st /\
   (request_timestamps st' = request_timestamps st \/
    request_timestamps st' = counted /\ (ticks st < ticks st')%nat)) \/
  (new = [clock (S (ticks st))] /\
   length (connection_history st') = S (length (connection_history st)) /\
   request_timestamps st' = counted ++ new /\
   (Z.of_nat (length counted) < MAX_REQUESTS_PER_HOUR)%Z /\
   (ticks st < ticks st')%nat).
Proof.
  destruct c as [|req|req]; simpl.
  - left. by auto.
  - left. unfold collect_profiles.
    destruct (negb (is_json req)); [by auto|].
    destruct (json req); by auto.
  - destruct (record_connection_cases req st)
      as [(Hc & -> & _)|[(Hc & -> & _)|(url & _ & _ & Hc & Hlt & ->)]];
      rewrite Hc; simpl.
    + left. by auto.
    + left. split; [done|]. split; [done|]. right. split; [done|lia].
    + right. rewrite length_app. simpl.
      split; [done|]. split; [lia|]. split; [done|]. split; [done|lia].
Qed.

(** X10.  After any run from the start, the history holds one record for
    each accepted connection request, so that [status] reports the number
    of accepted requests as 'connections_sent'. *)
Theorem status_counts_accepted (cs : list call) :
  let st := run_calls clock MAX_REQUESTS_PER_HOUR cs initial in
  let accepted := (run_log clock MAX_REQUESTS_PER_HOUR cs).2 in
  length (connection_history st) = length accepted /\
  fst (status clock st)
  = Response 200
      [("status", RStr "online");
       ("profiles_collected", RInt (Z.of_nat (size (profiles_data st))));
       ("connections_sent", RInt (Z.of_nat (length accepted)));
       ("timestamp", RNum (clock (ticks st)))].
Proof.
  simpl.
  assert (length (connection_history
                    (run_calls clock MAX_REQUESTS_PER_HOUR cs initial))
          = length (run_log clock MAX_REQUESTS_PER_HOUR cs).2) as Hlen.
  { rewrite <- run_log_state.
    induction cs as [|c cs IH] using rev_ind; [done|].
    rewrite run_log_snoc. simpl. rewrite length_app.
    destruct (serve_accepted c (run_log clock MAX_REQUESTS_PER_HOUR cs).1)
      as [(-> & -> & _)|(-> & -> & _)]; simpl; lia. }
  split; [exact Hlen|]. unfold status. simpl. by rewrite Hlen.
Qed.

Lemma timestamps_within_cap (cs : list call) :
  (Z.of_nat (length (request_timestamps
                       (run_calls clock MAX_REQUESTS_PER_HOUR cs initial)))
   <= Z.max 0 MAX_REQUESTS_PER_HOUR)%Z.
Proof.
  unfold run_calls.
  induction cs as [|c cs IH] using rev_ind; [simpl; lia|].
  rewrite foldl_app. simpl.
  set (st := foldl _ initial cs) in *.
  destruct (serve_accepted c st) as [(_ & _ & [->| [-> _]])|(-> & _ & -> & Hlt & _)].
  - exact IH.
  - etrans; [|exact IH]. apply inj_le. unfold recent. apply length_filter.
  - rewrite length_app. simpl. lia.
Qed.

(** X11.  From the start on, the limiter never holds more timestamps than
    the cap allows, whatever the clock does: their number is at most
    [MAX_REQUESTS_PER_HOUR], and none when the cap is zero or negative. *)
Theorem request_timestamps_bounded (cs : list call) :
  (Z.of_nat (length (request_timestamps
                       (run_calls clock MAX_REQUESTS_PER_HOUR cs initial)))
   <= Z.max 0 MAX_REQUESTS_PER_HOUR)%Z.
Proof. apply timestamps_within_cap. Qed.

Lemma later_recent (c now : Qc) (l : list Qc) :
  now - hour <= c ->
  filter (fun ts => c < ts) (recent now l) = filter (fun ts => c < ts) l.
Proof.
  intros Hc. unfold recent. apply list_filter_filter_l.
  intros ts Hts. by eapply Qcle_lt_trans.
Qed.

(** Pruning loses nothing that a later check would count: beyond any
    cut-off not earlier than the past ones, the timestamps kept and the
    readings of all accepted requests are the same. *)
Lemma run_log_pruned (cs : list call) (c : Qc) :
  past_cutoffs clock (run_log clock MAX_REQUESTS_PER_HOUR cs).1 c ->
  filter (fun ts => c < ts)
         (request_timestamps (run_log clock MAX_REQUESTS_PER_HOUR cs).1)
  = filter (fun ts => c < ts) (run_log clock MAX_REQUESTS_PER_HOUR cs).2.
Proof.
  revert c. induction cs as [|s cs IH] using rev_ind; intros c Hc; [done|].
  rewrite run_log_snoc in *. simpl in *.
  set (st := (run_log clock MAX_REQUESTS_PER_HOUR cs).1) in *.
  destruct (serve_keeps s st) as (_ & _ & Hticks). simpl in Hticks.
  assert (past_cutoffs clock st c) as Hpast.
  { intros k Hk. apply Hc. lia. }
  rewrite filter_app.
  destruct (serve_accepted s st)
    as [(-> & _ & [->| [-> Hlt]])|(-> & _ & -> & _ & Hlt)].
  - rewrite app_nil_r. by apply IH.
  - rewrite app_nil_r, later_recent; [by apply IH|]. by apply Hc.
  - rewrite filter_app, later_recent; [|by apply Hc].
    by rewrite (IH c Hpast).
Qed.

(** X12.  When the clock never runs backwards, dropping old timestamps
    loses nothing: at any point of a run the limiter's decision is the
    comparison of the cap with the number of all connection requests
    accepted within the last hour, and that number never exceeds the
    cap. *)
Theorem limiter_counts_all_accepted (cs : list call) :
  monotone clock ->
  let st := run_calls clock MAX_REQUESTS_PER_HOUR cs initial in
  let accepted := (run_log clock MAX_REQUESTS_PER_HOUR cs).2 in
  let now := clock (ticks st) in
  fst (check_rate_limit clock MAX_REQUESTS_PER_HOUR st)
  = bool_decide
      (MAX_REQUESTS_PER_HOUR <= Z.of_nat (length (recent now accepted)))%Z /\
  (Z.of_nat (length (recent now accepted)) <= Z.max 0 MAX_REQUESTS_PER_HOUR)%Z.
Proof.
  intros Hmono st accepted now.
  assert (recent now (request_timestamps st) = recent now accepted) as Heq.
  { subst st accepted now. rewrite <- run_log_state. unfold recent.
    apply run_log_pruned. intros k Hk.
    apply (proj1 (Qcplus_le_mono_r _ _ _)).
    apply monotone_le; [done|lia]. }
  split.
  - rewrite check_rate_limit_eq. simpl. fold now. by rewrite Heq.
  - rewrite <- Heq. etrans; [|apply (timestamps_within_cap cs)].
    apply inj_le. unfold recent. apply length_filter.
Qed.

End MoreAppProperties.

(** ** The profile listing *)

Import OrderedStore.

Lemma setitem_to_map (k : jval) (v : jobject) (d : odict) :
  to_map (setitem k v d) = <[k := v]> (to_map d).
Proof.
  unfold to_map. induction d as [|[k' v'] d IH]; [done|].
  simpl. destruct (decide (k' = k)) as [->|Hne]; simpl.
  - by rewrite insert_insert_eq.
  - rewrite IH. by apply insert_insert_ne.
Qed.

Lemma setitem_fresh (k : jval) (v : jobject) (d : odict) :
  k ∉ d.*1 -> setitem k v d = d ++ [(k, v)].
Proof.
  induction d as [|[k' v'] d IH]; [done|].
  simpl. intros Hk. apply not_elem_of_cons in Hk as [Hne Hk].
  rewrite decide_False by done. by rewrite IH.
Qed.

Lemma store_profiles_to_map (profiles : list jobject) (d : odict) :
  to_map (store_profiles d profiles)
  = foldl App.store_profile (to_map d) profiles.
Proof.
  unfold store_profiles.
  induction profiles as [|profile profiles IH] using rev_ind; [done|].
  rewrite !foldl_app. simpl. rewrite <- IH.
  unfold store_profile at 1, App.store_profile at 1.
  destruct (profile !! "profileUrl"); [apply setitem_to_map|done].
Qed.

Lemma setitem_keys_NoDup (k : jval) (v : jobject) (d : odict) :
  NoDup d.*1 -> NoDup (setitem k v d).*1.
Proof.
  induction d as [|[k' v'] d IH]; simpl; [intros _; apply NoDup_singleton|].
  intros [Hk Hd]%NoDup_cons.
  destruct (decide (k' = k)) as [->|Hne]; simpl.
  - by apply NoDup_cons.
  - apply NoDup_cons. split; [|by apply IH].
    intros Hin. apply Hk.
    clear -Hin Hne. induction d as [|[k'' v''] d IH]; simpl in *.
    + apply list_elem_of_singleton in Hin. congruence.
    + destruct (decide (k'' = k)) as [->|Hne']; simpl in *; [done|].
      apply elem_of_cons in Hin as [->|Hin]; [by left|].
      right. by apply IH.
Qed.

Lemma store_profiles_NoDup (profiles : list jobject) (d : odict) :
  NoDup d.*1 -> NoDup (store_profiles d profiles).*1.
Proof.
  intros Hd. unfold store_profiles.
  induction profiles as [|profile profiles IH] using rev_ind; [done|].
  rewrite foldl_app. simpl. unfold store_profile at 1.
  destruct (profile !! "profileUrl"); [by apply setitem_keys_NoDup|done].
Qed.

Lemma elem_of_values (d : odict) (profile : jobject) :
  NoDup d.*1 ->
  profile ∈ values d <-> exists url, to_map d !! url = Some profile.
Proof.
  intros Hd. unfold values, to_map. split.
  - intros ((url & p) & -> & Hin)%list_elem_of_fmap.
    exists url. by apply elem_of_list_to_map.
  - intros (url & Hl). apply elem_of_list_to_map in Hl; [|done].
    apply list_elem_of_fmap. by exists (url, profile).
Qed.

(** X13.  After ingestion into an empty store, [get_profiles] without a
    filter lists exactly the profiles the store holds: a profile is listed
    if and only if it is the last one submitted under its URL. *)
Theorem get_profiles_lists_store (profiles : list jobject) (profile : jobject) :
  profile ∈ get_profiles None (store_profiles [] profiles)
  <-> exists url, last (submitted_under url profiles) = Some profile.
Proof.
  unfold get_profiles.
  rewrite elem_of_values by (apply store_profiles_NoDup, NoDup_nil_2).
  rewrite store_profiles_to_map.
  change (to_map []) with (∅ : gmap jval jobject).
  split; intros (url & Hl); exists url.
  - rewrite store_profiles_lookup in Hl.
    destruct (last _); [done|]. by rewrite lookup_empty in Hl.
  - rewrite store_profiles_lookup. by rewrite Hl.
Qed.

Lemma bindings_keys (profiles : list jobject) :
  (omap binding_of profiles).*1 = omap url_of profiles.
Proof.
  induction profiles as [|p profiles IH]; [done|].
  change (omap binding_of (p :: profiles))
    with (match binding_of p with
          | Some b => b :: omap binding_of profiles
          | None => omap binding_of profiles
          end).
  change (omap url_of (p :: profiles))
    with (match url_of p with
          | Some u => u :: omap url_of profiles
          | None => omap url_of profiles
          end).
  unfold binding_of at 1.
  destruct (url_of p); [|exact IH]. rewrite fmap_cons. by rewrite IH.
Qed.

Lemma bindings_values (profiles : list jobject) :
  (omap binding_of profiles).*2
  = filter (fun p => is_Some (url_of p)) profiles.
Proof.
  induction profiles as [|p profiles IH]; [done|].
  rewrite filter_cons.
  change (omap binding_of (p :: profiles))
    with (match binding_of p with
          | Some b => b :: omap binding_of profiles
          | None => omap binding_of profiles
          end).
  unfold binding_of at 1.
  destruct (url_of p) as [url|].
  - rewrite decide_True by eauto. rewrite fmap_cons. by rewrite IH.
  - rewrite decide_False by (by intros [? ?]). exact IH.
Qed.

Lemma store_profiles_fresh (profiles : list jobject) :
  NoDup (omap url_of profiles) ->
  store_profiles [] profiles = omap binding_of profiles.
Proof.
  unfold store_profiles.
  induction profiles as [|p profiles IH] using rev_ind; [done|].
  rewrite omap_app. intros (Hnd & Hdisj & _)%NoDup_app.
  rewrite foldl_app, omap_app, IH by done. simpl.
  unfold store_profile, binding_of, url_of in *.
  destruct (p !! "profileUrl") as [url|] eqn:Hu; simpl; [|by rewrite app_nil_r].
  apply setitem_fresh. rewrite bindings_keys.
  intros Hin. apply (Hdisj url Hin). unfold url_of. simpl. rewrite Hu.
  apply list_elem_of_here.
Qed.

(** X14.  When the submitted URLs are all different, ingestion into an
    empty store followed by [get_profiles] gives back the submitted
    profiles that carry a URL, unchanged and in the order of submission;
    the ones without a URL are missing. *)
Theorem collect_then_get_profiles (profiles : list jobject) :
  NoDup (omap url_of profiles) ->
  get_profiles None (store_profiles [] profiles)
  = filter (fun p => is_Some (url_of p)) profiles.
Proof.
  intros Hnd. unfold get_profiles, values.
  rewrite store_profiles_fresh by done. apply bindings_values.
Qed.

Lemma collect_then_get_profiles_witness :
  get_profiles None (store_profiles [] [alice; ∅; bob]) = [alice; bob].
Proof.
  rewrite (collect_then_get_profiles [alice; ∅; bob]).
  - by vm_compute.
  - apply (bool_decide_unpack _). by vm_compute.
Defined.

Lemma mark_connected_status (ts : jval) (profile : jobject) :
  mark_connected ts profile !! "status" = Some (JStr "connected").
Proof.
  unfold mark_connected. by rewrite lookup_insert_ne, lookup_insert_eq.
Qed.

(** X15.  A connection recorded for a stored URL shows under
    [?status=connected]: after the mark, the listing filtered by
    "connected" holds the marked profile, and whatever else it holds was
    listed under that filter before.  An empty filter lists everything. *)
Theorem marked_profile_is_listed
    (d : odict) (url ts : jval) (profile : jobject) :
  (url, profile) ∈ d ->
  let d' := mark_profile url ts d in
  mark_connected ts profile ∈ get_profiles (Some "connected") d' /\
  (forall q, q ∈ get_profiles (Some "connected") d' ->
             (exists p, (url, p) ∈ d /\ q = mark_connected ts p) \/
             q ∈ get_profiles (Some "connected") d) /\
  get_profiles (Some "") d' = get_profiles None d'.
Proof.
  intros Hin d'. subst d'. unfold mark_profile, contains_key.
  rewrite bool_decide_eq_true_2
    by (apply list_elem_of_fmap; by exists (url, profile)).
  unfold get_profiles, values, update_item. simpl.
  split; [|split; [|done]].
  - apply list_elem_of_filter. split; [apply mark_connected_status|].
    apply list_elem_of_fmap. exists (url, mark_connected ts profile).
    split; [done|]. apply list_elem_of_fmap. exists (url, profile).
    split; [|done]. simpl. by rewrite decide_True.
  - intros q [Hq Hin']%list_elem_of_filter.
    apply list_elem_of_fmap in Hin' as ([k q'] & -> & Hin').
    apply list_elem_of_fmap in Hin' as ([k0 p] & Heq & Hin0).
    simpl in Heq. destruct (decide (k0 = url)) as [->|Hne].
    + left. exists p. injection Heq as -> ->. by split.
    + right. injection Heq as -> ->.
      apply list_elem_of_filter. split; [done|].
      apply list_elem_of_fmap. by exists (k0, p).
Qed.

Lemma marked_profile_is_listed_witness :
  mark_connected JNull alice
    ∈ get_profiles (Some "connected")
        (mark_profile (JStr "https://www.linkedin.com/in/alice") JNull
           (store_profiles [] [alice; bob])).
Proof.
  apply (marked_profile_is_listed (store_profiles [] [alice; bob])
           (JStr "https://www.linkedin.com/in/alice") JNull alice).
  apply list_elem_of_here.
Defined.

Lemma update_item_to_map (f : jobject -> jobject) (k : jval) (d : odict) :
  to_map (update_item f k d) = alter f k (to_map d).
Proof.
  unfold to_map, update_item. induction d as [|[k' v'] d IH]; simpl.
  - by rewrite alter_empty.
  - destruct (decide (k' = k)) as [->|Hne]; simpl.
    + rewrite IH, alter_insert_eq. apply map_eq. intros i.
      destruct (decide (i = k)) as [->|Hi].
      * by rewrite !lookup_insert_eq.
      * rewrite !lookup_insert_ne by done. by rewrite lookup_alter_ne.
    + rewrite IH. by rewrite alter_insert_ne.
Qed.

Lemma update_item_keys (f : jobject -> jobject) (k : jval) (d : odict) :
  (update_item f k d).*1 = d.*1.
Proof.
  unfold update_item. induction d as [|[k' v'] d IH]; [done|].
  cbn [map]. rewrite !fmap_cons. f_equal; [|exact IH].
  simpl. by destruct (decide (k' = k)).
Qed.

(** X16.  The store kept in dictionary order holds what the handlers'
    store holds: forgetting the order, ingestion is the fold of
    [collect_profiles] and the mark is the update of [record_connection];
    and its keys stay without repetition. *)
Theorem ordered_store_agrees
    (d : odict) (profiles : list jobject) (url ts : jval) :
  to_map (store_profiles d profiles)
  = foldl App.store_profile (to_map d) profiles /\
  to_map (mark_profile url ts d)
  = (if bool_decide (is_Some (to_map d !! url))
     then alter (mark_connected ts) url (to_map d)
     else to_map d) /\
  (NoDup d.*1 ->
   NoDup (store_profiles d profiles).*1 /\ NoDup (mark_profile url ts d).*1).
Proof.
  split; [apply store_profiles_to_map|]. split.
  - unfold mark_profile, contains_key.
    destruct (decide (url ∈ d.*1)) as [Hin|Hnin].
    + rewrite bool_decide_eq_true_2 by done.
      rewrite bool_decide_eq_true_2; [apply update_item_to_map|].
      unfold to_map. destruct (list_to_map d !! url) eqn:Hl; [by eauto|].
      by apply not_elem_of_list_to_map in Hl.
    + rewrite bool_decide_eq_false_2 by done.
      rewrite bool_decide_eq_false_2; [done|].
      unfold to_map. rewrite (not_elem_of_list_to_map_1 _ _ Hnin).
      by intros [? ?].
  - intros Hd. split; [by apply store_profiles_NoDup|].
    unfold mark_profile. destruct (contains_key url d); [|done].
    by rewrite update_item_keys.
Qed.

Lemma ordered_store_agrees_witness :
  NoDup (store_profiles [] [alice; bob; alice]).*1.
Proof.
  apply (ordered_store_agrees [] [alice; bob; alice] JNull JNull).
  apply NoDup_nil_2.
Defined.

(** ** The message endpoint *)

Section EndpointProperties.

Variable exn_str : exn -> string.

(** X17.  The message endpoint answers a request that carries a profile
    as the generator decides.  Without a key the answer is a success with
    a non-empty message; with a key it is a success whose message is
    [None]; and when the title of the profile is not a string, with or
    without a key, it is the 500 answer with the text of the error and the
    endpoint's own fixed message. *)
Theorem message_endpoint_answers
    (key : option string) (p : profile) (draw : nat) :
  let answer :=
    snd (AppGenerate.generate_message exn_str key (Request true (Some p)) draw) in
  (title_is_str p = true -> no_api_key key = true ->
   exists c0 out,
     answer = AppGenerate.MResponse 200
                [("success", AppGenerate.MBool true);
                 ("message", AppGenerate.MVal (PStr (String c0 out)))]) /\
  (title_is_str p = true -> no_api_key key = false ->
   answer = AppGenerate.MResponse 200
              [("success", AppGenerate.MBool true);
               ("message", AppGenerate.MVal PNone)]) /\
  (title_is_str p = false ->
   answer = AppGenerate.MResponse 500
              [("success", AppGenerate.MBool false);
               ("error", AppGenerate.MVal (PStr (exn_str AttributeError)));
               ("message",
                AppGenerate.MVal
                  (PStr "I came across your profile and would love to connect!"))]).
Proof.
  unfold AppGenerate.generate_message. simpl.
  split; [|split].
  - intros Hp Hk.
    destruct (generate_message_without_key key p draw Hk Hp)
      as (c0 & out & ->). eauto.
  - intros Hp Hk. destruct key as [k|]; [|discriminate].
    unfold no_api_key in Hk. apply bool_decide_eq_false in Hk.
    by rewrite (generate_message_with_key k p draw Hk Hp).
  - intros Hp. apply title_not_str in Hp.
    by rewrite (generate_message_null_title key p draw Hp).
Qed.

End EndpointProperties.

Lemma message_endpoint_answers_witness :
  snd (AppGenerate.generate_message (fun _ => "") (Some "sk-test")
         (Request true (Some test_profile)) 0)
  = AppGenerate.MResponse 200
      [("success", AppGenerate.MBool true);
       ("message", AppGenerate.MVal PNone)] /\
  snd (AppGenerate.generate_message (fun _ => "") None
         (Request true (Some null_title)) 0)
  = AppGenerate.MResponse 500
      [("success", AppGenerate.MBool false);
       ("error", AppGenerate.MVal (PStr ""));
       ("message",
        AppGenerate.MVal
          (PStr "I came across your profile and would love to connect!"))].
Proof.
  split.
  - apply (message_endpoint_answers (fun _ => "") (Some "sk-test")
             test_profile 0); reflexivity.
  - apply (message_endpoint_answers (fun _ => "") None null_title 0).
    reflexivity.
Defined.

Lemma record_connection_malformed_witness :
  record_connection minute_clock 2 (Request false ∅) two_recorded
  = (Response 400 [("error", RStr "Request must be JSON")], two_recorded) /\
  record_connection minute_clock 2 (Request true ∅) two_recorded
  = (Response 400 [("error", RStr "No profile URL provided")], two_recorded).
Proof.
  split.
  - apply (record_connection_malformed minute_clock 2 (Request false ∅)).
    by left.
  - apply (record_connection_malformed minute_clock 2 (Request true ∅)).
    by right.
Defined.

Lemma limiter_counts_all_accepted_witness :
  fst (check_rate_limit minute_clock 2 two_recorded) = true.
Proof.
  destruct (limiter_counts_all_accepted minute_clock 2
              [CallRecordConnection connect_alice;
               CallRecordConnection connect_alice]
              minute_clock_monotone) as [Hd _].
  fold two_recorded in Hd. rewrite Hd. by vm_compute.
Defined.

(** ** The limiter after the hour has passed *)

(** X18.  Once every recorded timestamp is an hour old or older, the
    limiter forgets them all: under a cap of at least one, a well-formed
    connection request is then accepted, and the timestamp of that request
    is the only one kept.  A timestamp of exactly one hour ago no longer
    counts. *)
Theorem record_connection_after_an_hour
    (clock : nat -> Qc) (MAX_REQUESTS_PER_HOUR : Z)
    (req : request jobject) (st : state) (url : jval) :
  is_json req = true ->
  json req !! "profileUrl" = Some url ->
  (0 < MAX_REQUESTS_PER_HOUR)%Z ->
  (forall ts, ts ∈ request_timestamps st -> (ts <= clock (ticks st) - hour)%Qc) ->
  let resp := fst (record_connection clock MAX_REQUESTS_PER_HOUR req st) in
  let st' := snd (record_connection clock MAX_REQUESTS_PER_HOUR req st) in
  status_code resp = 200%nat /\
  request_timestamps st' = [clock (S (ticks st))] /\
  connection_history st'
  = connection_history st ++ [record_of clock req st url].
Proof.
  intros Hj Hurl Hmax Hold resp st'. subst resp st'.
  assert (recent (clock (ticks st)) (request_timestamps st) = []) as Hnone.
  { destruct (recent _ _) as [|ts l] eqn:Hr; [done|].
    assert (ts ∈ recent (clock (ticks st)) (request_timestamps st)) as Hin
        by (rewrite Hr; apply list_elem_of_here).
    apply elem_of_recent in Hin as [Hlt Hts].
    destruct (Qclt_not_le _ _ Hlt). by apply Hold. }
  destruct (record_connection_cases clock MAX_REQUESTS_PER_HOUR req st)
    as [(_ & _ & [Hf|Hf])|[(_ & _ & Hcap)|(url' & Hurl' & _ & Hc & _ & ->)]].
  - congruence.
  - congruence.
  - rewrite Hnone in Hcap. simpl in Hcap. lia.
  - rewrite Hurl in Hurl'. injection Hurl' as <-.
    rewrite Hnone. by split.
Qed.

Lemma record_connection_after_an_hour_witness :
  request_timestamps
    (snd (record_connection hourly_clock 1 connect_alice one_old))
  = [hourly_clock 1].
Proof.
  apply (record_connection_after_an_hour hourly_clock 1 connect_alice one_old
           (JStr "https://www.linkedin.com/in/alice"));
    [reflexivity | reflexivity | lia |].
  intros ts Hts. apply list_elem_of_singleton in Hts as ->. by vm_compute.
Defined.

Lemma record_connection_store_witness :
  exists profile',
    profiles_data (snd (record_connection minute_clock 2 connect_alice
                          two_collected))
      !! JStr "https://www.linkedin.com/in/alice" = Some profile' /\
    profile' !! "status" = Some (JStr "connected") /\
    profile' !! "name" = Some (JStr "Alice").
Proof.
  destruct (record_connection_store minute_clock 2 connect_alice two_collected)
    as (_ & _ & Hmark).
  destruct (Hmark (JStr "https://www.linkedin.com/in/alice") eq_refl eq_refl)
    as [_ Hp].
  destruct (Hp alice eq_refl) as (profile' & Hl & Hs & _ & Hrest).
  exists profile'. split; [exact Hl|]. split; [exact Hs|].
  rewrite (Hrest "name"); [reflexivity|discriminate|discriminate].
Defined.
